(** * pyeasee.charger: the charger records and the Charger facade

    A shallow embedding of [pyeasee/charger.py].  JSON payloads are finite
    maps from field names to Python values, the record classes are functions
    from a payload to the mapping they hold, and the asynchronous methods of
    [Charger] are programs over the calls they await on their collaborators
    (the [easee] transport, the responses it hands out, the circuit). *)

From Stdlib Require Import ZArith Ascii String Floats.SpecFloat Sorting.Sorted Sorting.Permutation.
From stdpp Require Import gmap strings list fin_maps pretty sorting.

Set Warnings "-register-all".
Local Open Scope string_scope.
Local Open Scope list_scope.
Local Open Scope Z_scope.

(** ** Python values *)

Module Py.

(** The hashable values a JSON document can hold: [None], booleans, integers,
    floats (IEEE 754 binary64, as [spec_float]) and strings. *)
Inductive Scalar :=
| SNone
| SBool (b : bool)
| SInt (z : Z)
| SFloat (f : spec_float)
| SStr (s : string).

(** A decoded JSON document.  Lists and dicts are the unhashable values. *)
Inductive PyVal :=
| VScalar (a : Scalar)
| VList (l : list PyVal)
| VDict (d : gmap string PyVal).

Abbreviation VNone := (VScalar SNone).
Abbreviation VBool b := (VScalar (SBool b)).
Abbreviation VInt z := (VScalar (SInt z)).
Abbreviation VFloat f := (VScalar (SFloat f)).
Abbreviation VStr s := (VScalar (SStr s)).

(** The exceptions that reach a caller of this module.  [KeyError] carries
    the key that was looked up.  [NotFoundException] is the class imported
    from [pyeasee.exceptions]; [OtherException] stands for any other class a
    collaborator raises, by name. *)
Inductive Exn :=
| KeyError (key : PyVal)
| TypeError
| ValueError
| OverflowError
| AttributeError
| NotFoundException (detail : string)
| OtherException (name detail : string).

(** An expression either yields a value or raises. *)
Inductive result (A : Type) :=
| Ok (a : A)
| Err (e : Exn).
Arguments Ok {A} a.
Arguments Err {A} e.

Definition rbind {A B} (r : result A) (f : A -> result B) : result B :=
  match r with
  | Ok a => f a
  | Err e => Err e
  end.

Declare Scope result_scope.
Delimit Scope result_scope with result.
Notation "x <- r ;; k" := (rbind r (fun x => k))
  (at level 100, r at next level, right associativity) : result_scope.

(** *** Numbers by value

    [bool], [int] and [float] compare with each other by exact value. *)
Inductive Num :=
| NNan
| NInf (neg : bool)
| NDyadic (m e : Z).   (* m * 2^e *)

Definition num_of_float (f : spec_float) : Num :=
  match f with
  | S754_zero _ => NDyadic 0 0
  | S754_infinity s => NInf s
  | S754_nan => NNan
  | S754_finite s m e => NDyadic (if s then Zneg m else Zpos m) e
  end.

Definition num_of_scalar (a : Scalar) : option Num :=
  match a with
  | SBool b => Some (NDyadic (if b then 1 else 0) 0)
  | SInt z => Some (NDyadic z 0)
  | SFloat f => Some (num_of_float f)
  | SNone | SStr _ => None
  end.

Definition dyadic_compare (m1 e1 m2 e2 : Z) : comparison :=
  let e := Z.min e1 e2 in
  Z.compare (m1 * 2 ^ (e1 - e)) (m2 * 2 ^ (e2 - e)).

(** [None] when either side is a NaN: every comparison with it is false. *)
Definition num_compare (x y : Num) : option comparison :=
  match x, y with
  | NNan, _ | _, NNan => None
  | NInf s1, NInf s2 =>
      Some (match s1, s2 with
            | true, false => Lt
            | false, true => Gt
            | _, _ => Eq
            end)
  | NInf s, NDyadic _ _ => Some (if s then Lt else Gt)
  | NDyadic _ _, NInf s => Some (if s then Gt else Lt)
  | NDyadic m1 e1, NDyadic m2 e2 => Some (dyadic_compare m1 e1 m2 e2)
  end.

(** *** [==] and [<] *)

Definition scalar_eq (a b : Scalar) : bool :=
  match a, b with
  | SNone, SNone => true
  | SStr s, SStr t => String.eqb s t
  | _, _ =>
      match num_of_scalar a, num_of_scalar b with
      | Some x, Some y =>
          match num_compare x y with
          | Some Eq => true
          | _ => false
          end
      | _, _ => false
      end
  end.

(** [a < b] on hashable values: numbers with numbers, strings with strings
    (by code point, which is the byte order of their UTF-8 text); anything
    else is a [TypeError]. *)
Definition scalar_lt (a b : Scalar) : result bool :=
  match a, b with
  | SStr s, SStr t => Ok (String.ltb s t)
  | _, _ =>
      match num_of_scalar a, num_of_scalar b with
      | Some x, Some y =>
          Ok (match num_compare x y with
              | Some Lt => true
              | _ => false
              end)
      | _, _ => Err TypeError
      end
  end.

Fixpoint py_eq (a b : PyVal) {struct a} : bool :=
  match a, b with
  | VScalar x, VScalar y => scalar_eq x y
  | VList l1, VList l2 =>
      (fix go (l1 l2 : list PyVal) {struct l1} : bool :=
         match l1, l2 with
         | [], [] => true
         | x :: l1, y :: l2 => py_eq x y && go l1 l2
         | _, _ => false
         end) l1 l2
  | VDict d1, VDict d2 =>
      bool_decide (dom d1 = dom d2) &&
      map_fold (fun k x acc =>
                  acc && match d2 !! k with
                         | Some y => py_eq x y
                         | None => false
                         end) true d1
  | _, _ => false
  end.

(** Lists compare lexicographically: the first pair of unequal items decides,
    otherwise the shorter list is the smaller.  Dicts do not support [<]. *)
Fixpoint py_lt (a b : PyVal) {struct a} : result bool :=
  match a, b with
  | VScalar x, VScalar y => scalar_lt x y
  | VList l1, VList l2 =>
      (fix go (l1 l2 : list PyVal) {struct l1} : result bool :=
         match l1, l2 with
         | [], [] => Ok false
         | [], _ :: _ => Ok true
         | _ :: _, [] => Ok false
         | x :: l1, y :: l2 => if py_eq x y then go l1 l2 else py_lt x y
         end) l1 l2
  | _, _ => Err TypeError
  end.

(** *** [float(x)]

    Text is read as ASCII: a character outside ASCII is neither a digit nor
    white space here. *)

Definition binary64_of_Z (z : Z) : spec_float :=
  binary_normalize 53 1024 z 0 false.

(** The binary64 nearest to [n / d] (ties to even) for positive [n] and [d],
    with the sign [neg]: the quotient is taken with at least 57 bits and
    rounded once with the position of the remainder. *)
Definition binary64_of_ratio (neg : bool) (n d : Z) : spec_float :=
  let k := Z.max 0 (Z.log2 d + 57 - Z.log2 n) in
  let (q, r) := Z.div_eucl (n * 2 ^ k) d in
  binary_round_aux 53 1024 neg q (- k) (new_location d r).

(** The binary64 nearest to [digits * 10^exp10]. *)
Definition binary64_of_decimal (neg : bool) (digits exp10 : Z) : spec_float :=
  if digits =? 0 then S754_zero neg
  else if 0 <=? exp10 then binary64_of_ratio neg (digits * 10 ^ exp10) 1
  else binary64_of_ratio neg digits (10 ^ (- exp10)).

Definition digit_of (c : ascii) : option Z :=
  let n := Z.of_N (N_of_ascii c) in
  if (48 <=? n) && (n <=? 57) then Some (n - 48) else None.

Definition is_digit (c : ascii) : bool :=
  match digit_of c with
  | Some _ => true
  | None => false
  end.

Definition lower (c : ascii) : ascii :=
  let n := N_of_ascii c in
  if ((65 <=? n) && (n <=? 90))%N then ascii_of_N (n + 32) else c.

Fixpoint lstrip (s : string) : string :=
  match s with
  | String c s' => if Ascii.is_space c then lstrip s' else s
  | EmptyString => EmptyString
  end.

Definition strip (s : string) : string :=
  String.rev (lstrip (String.rev (lstrip s))).

(** An underscore is accepted between two digits only, and dropped. *)
Fixpoint drop_underscores (prev : ascii) (s : string) : option string :=
  match s with
  | EmptyString => if Ascii.eqb prev "_" then None else Some EmptyString
  | String c s' =>
      if Ascii.eqb c "_" then
        if is_digit prev then drop_underscores c s' else None
      else if Ascii.eqb prev "_" && negb (is_digit c) then None
      else String c <$> drop_underscores c s'
  end.

(** The longest prefix of digits, as digits, and what follows it. *)
Fixpoint read_digits (s : string) : list Z * string :=
  match s with
  | String c s' =>
      match digit_of c with
      | Some d => let (ds, rest) := read_digits s' in (d :: ds, rest)
      | None => ([], s)
      end
  | EmptyString => ([], EmptyString)
  end.

Definition Z_of_digits (ds : list Z) : Z :=
  fold_left (fun acc d => 10 * acc + d) ds 0.

Definition read_sign (s : string) : bool * string :=
  match s with
  | String "-" s' => (true, s')
  | String "+" s' => (false, s')
  | _ => (false, s)
  end.

(** [e] or [E], an optional sign and at least one digit, up to the end. *)
Definition read_exponent (s : string) : option Z :=
  match s with
  | EmptyString => Some 0
  | String c s' =>
      if Ascii.eqb (lower c) "e" then
        let (neg, s'') := read_sign s' in
        match read_digits s'' with
        | ((_ :: _) as ds, EmptyString) =>
            Some (if neg then - Z_of_digits ds else Z_of_digits ds)
        | _ => None
        end
      else None
  end.

(** [digits [. digits] [exponent]] or [. digits [exponent]]. *)
Definition read_number (neg : bool) (s : string) : option spec_float :=
  let (ip, rest) := read_digits s in
  let '(fp, rest) :=
    match rest with
    | String "." rest' => read_digits rest'
    | _ => ([], rest)
    end in
  match (ip ++ fp)%list with
  | [] => None
  | ds =>
      e ← read_exponent rest;
      Some (binary64_of_decimal neg (Z_of_digits ds) (e - Z.of_nat (length fp)))
  end.

Fixpoint map_string (f : ascii -> ascii) (s : string) : string :=
  match s with
  | String c s' => String (f c) (map_string f s')
  | EmptyString => EmptyString
  end.

Definition float_of_string (s : string) : result spec_float :=
  match drop_underscores "000" (strip s) with
  | None => Err ValueError
  | Some s =>
      let (neg, body) := read_sign s in
      let word := map_string lower body in
      if String.eqb word "inf" || String.eqb word "infinity" then Ok (S754_infinity neg)
      else if String.eqb word "nan" then Ok S754_nan
      else match read_number neg body with
           | Some f => Ok f
           | None => Err ValueError
           end
  end.

Definition py_float (v : PyVal) : result spec_float :=
  match v with
  | VFloat f => Ok f
  | VInt z =>
      match binary64_of_Z z with
      | S754_infinity _ => Err OverflowError
      | f => Ok f
      end
  | VBool b => Ok (binary64_of_Z (if b then 1 else 0))
  | VStr s => float_of_string s
  | VNone | VList _ | VDict _ => Err TypeError
  end.

(** *** [str(x)] of a hashable value

    [repr] of a float is the shortest decimal text that reads back as the
    same float, the nearest to it among those of that length. *)

Definition float_eqv (f g : spec_float) : bool :=
  match num_compare (num_of_float f) (num_of_float g) with
  | Some Eq => true
  | _ => false
  end.

(** [n / d < 10^k] *)
Definition below_pow10 (n d k : Z) : bool :=
  if 0 <=? k then n <? d * 10 ^ k else n * 10 ^ (- k) <? d.

(** The least [k] with [n / d < 10^k]. *)
Definition decimal_point (n d : Z) : Z :=
  let est := (Z.log2 n - Z.log2 d) * 30103 / 100000 in
  default est (head (filter (fun k => Is_true (below_pow10 n d k)) (seqZ (est - 2) 6))).

(** The [p]-digit decimals next to [n / d], when they read back as [f]:
    the digits as an integer and the power of ten they are scaled by. *)
Definition digits_at (f : spec_float) (n d k p : Z) : option (Z * Z) :=
  let e := k - p in
  let (num, den) := if e <=? 0 then (n * 10 ^ (- e), d) else (n, d * 10 ^ e) in
  let (lo, rem) := Z.div_eucl num den in
  let ok m := (0 <? m) && float_eqv (binary64_of_decimal false m e) f in
  match ok lo, ok (lo + 1) with
  | true, true =>
      Some (match Z.compare (2 * rem) den with
            | Lt => lo
            | Gt => lo + 1
            | Eq => if Z.even lo then lo else lo + 1
            end, e)
  | true, false => Some (lo, e)
  | false, true => Some (lo + 1, e)
  | false, false => None
  end.

Fixpoint shortest_digits (f : spec_float) (n d k : Z) (ps : list Z) : Z * Z :=
  match ps with
  | [] => (0, 0)
  | p :: ps =>
      match digits_at f n d k p with
      | Some r => r
      | None => shortest_digits f n d k ps
      end
  end.

Fixpoint strip_zeros (fuel : nat) (m e : Z) : Z * Z :=
  match fuel with
  | O => (m, e)
  | S fuel => if (m mod 10 =? 0) && negb (m =? 0) then strip_zeros fuel (m / 10) (e + 1) else (m, e)
  end.

Definition zeros (n : Z) : string :=
  fold_right (fun _ s => String "0" s) EmptyString (seqZ 0 n).

Definition substring_from (n : nat) (s : string) : string :=
  String.substring n (String.length s - n) s.

(** The text of the positive float [f], of value [n / d], written as [repr] does:
    positional when the decimal point falls within -4 < . <= 16, with an
    exponent of at least two digits otherwise. *)
Definition repr_finite (f : spec_float) (n d : Z) : string :=
  let k := decimal_point n d in
  let (m0, e0) := shortest_digits f n d k (seqZ 1 17) in
  let (m, e) := strip_zeros 20 m0 e0 in
  let ds := pretty m in
  let nd := Z.of_nat (String.length ds) in
  let decpt := nd + e in
  if (-4 <? decpt) && (decpt <=? 16) then
    if decpt <=? 0 then "0." +:+ zeros (- decpt) +:+ ds
    else if nd <=? decpt then ds +:+ zeros (decpt - nd) +:+ ".0"
    else String.substring 0 (Z.to_nat decpt) ds +:+ "." +:+ substring_from (Z.to_nat decpt) ds
  else
    let x := decpt - 1 in
    let mant := if nd =? 1 then ds
                else String.substring 0 1 ds +:+ "." +:+ substring_from 1 ds in
    let ex := pretty (Z.abs x) in
    mant +:+ "e" +:+ (if x <? 0 then "-" else "+") +:+
      (if Z.abs x <? 10 then "0" +:+ ex else ex).

Definition float_repr (f : spec_float) : string :=
  match f with
  | S754_nan => "nan"
  | S754_infinity s => if s then "-inf" else "inf"
  | S754_zero s => if s then "-0.0" else "0.0"
  | S754_finite s m e =>
      let (n, d) := if 0 <=? e then (Zpos m * 2 ^ e, 1) else (Zpos m, 2 ^ (- e)) in
      (if s then "-" else EmptyString) +:+ repr_finite (S754_finite false m e) n d
  end.

Definition str_scalar (a : Scalar) : string :=
  match a with
  | SNone => "None"
  | SBool b => if b then "True" else "False"
  | SInt z => pretty z
  | SFloat f => float_repr f
  | SStr s => s
  end.

End Py.


Import Py.
Local Open Scope result_scope.

(** ** Dictionaries *)

(** [d[k]] on a payload: [KeyError(k)] when the key is missing. *)
Definition getitem (d : gmap string PyVal) (k : string) : result PyVal :=
  match d !! k with
  | Some v => Ok v
  | None => Err (KeyError (VStr k))
  end.

(** [d.get(k)]: [None] when the key is missing. *)
Definition dict_get (d : gmap string PyVal) (k : string) : PyVal :=
  default VNone (d !! k).

(** Hashing a key: a list or a dict is unhashable. *)
Definition hashable (k : PyVal) : result Scalar :=
  match k with
  | VScalar a => Ok a
  | VList _ | VDict _ => Err TypeError
  end.

(** A dict literal whose keys are hashable constants, in source order.  A
    key is found when it is [==] to a key of the table (so [True], [1] and
    [1.0] find the same entry). *)
Fixpoint table_find {V} (tbl : list (Scalar * V)) (k : Scalar) : option V :=
  match tbl with
  | [] => None
  | (k', v) :: tbl => if scalar_eq k' k then Some v else table_find tbl k
  end.

(** [tbl[k]] *)
Definition table_getitem {V} (tbl : list (Scalar * V)) (k : PyVal) : result V :=
  a <- hashable k ;;
  match table_find tbl a with
  | Some v => Ok v
  | None => Err (KeyError k)
  end.

(** [tbl.get(k, dflt)] *)
Definition table_get {V} (tbl : list (Scalar * V)) (k : PyVal) (dflt : V) : result V :=
  a <- hashable k ;;
  Ok (default dflt (table_find tbl a)).

(** ** The enum tables *)

Definition STATUS : list (Scalar * string) :=
  [ (SInt 0, "OFFLINE");
    (SInt 1, "DISCONNECTED");
    (SInt 2, "AWAITING_START");
    (SInt 3, "CHARGING");
    (SInt 4, "COMPLETED");
    (SInt 5, "ERROR");
    (SInt 6, "READY_TO_CHARGE") ].

Definition NODE_TYPE : list (Scalar * string) :=
  [ (SInt 1, "Master"); (SInt 2, "Extender") ].

Definition PHASE_MODE : list (Scalar * string) :=
  [ (SInt 1, "Locked to single phase");
    (SInt 2, "Auto");
    (SInt 3, "Locked to three phase") ].

Definition REASON_FOR_NO_CURRENT : list (Scalar * string) :=
  [ (SNone, "No reason");
    (SInt 0, "No reason, charging or ready to charge");
    (SInt 1, "Charger paused");
    (SInt 2, "Charger paused");
    (SInt 3, "Charger paused");
    (SInt 4, "Charger paused");
    (SInt 5, "Charger paused");
    (SInt 6, "Charger paused");
    (SInt 9, "Error no current");
    (SInt 50, "Secondary unit not requesting current or no car connected");
    (SInt 51, "Charger paused");
    (SInt 52, "Charger paused");
    (SInt 53, "Charger disabled");
    (SInt 54, "Waiting for schedule/auth");
    (SInt 55, "Pending auth") ].

(** ** The record classes *)

(** Modelled from the spec: [BaseDict] of [pyeasee/utils.py] is not under
    src/.  The spec (4.2) has the record behave as an immutable mapping over
    the field set it is built from, with key lookup and equality by content:
    the record is the mapping it was given. *)
Definition BaseDict (data : gmap string PyVal) : gmap string PyVal := data.

(** [f"({code}) {REASON_FOR_NO_CURRENT.get(code, 'Unknown')}"].  The text of
    [code] is only ever seen for a hashable [code]: for a list or a dict the
    [.get] that follows raises [TypeError] and the text is lost with it. *)
Definition reason_text (code : PyVal) : result string :=
  a <- hashable code ;;
  label <- table_get REASON_FOR_NO_CURRENT code "Unknown" ;;
  Ok ("(" +:+ str_scalar a +:+ ") " +:+ label).

Definition ChargerState (state : gmap string PyVal) (raw : bool) : result (gmap string PyVal) :=
  if negb raw then
    opmode <- getitem state "chargerOpMode" ;;
    status <- table_getitem STATUS opmode ;;
    code <- getitem state "reasonForNoCurrent" ;;
    reason <- reason_text code ;;
    Ok (BaseDict (<["reasonForNoCurrent" := VStr reason]>
                    (<["chargerOpMode" := VStr status]> state)))
  else
    code <- getitem state "reasonForNoCurrent" ;;
    Ok (BaseDict (<["reasonForNoCurrent" :=
                      match code with
                      | VNone => VStr "none"
                      | _ => code
                      end]> state)).

Definition ChargerConfig (config : gmap string PyVal) (raw : bool) : result (gmap string PyVal) :=
  if negb raw then
    node <- getitem config "localNodeType" ;;
    node <- table_getitem NODE_TYPE node ;;
    phase <- getitem config "phaseMode" ;;
    phase <- table_getitem PHASE_MODE phase ;;
    Ok (BaseDict (<["phaseMode" := VStr phase]>
                    (<["localNodeType" := VStr node]> config)))
  else
    Ok (BaseDict config).

Definition ChargerSchedule (schedule : gmap string PyVal) : gmap string PyVal :=
  BaseDict (<["repeat" := dict_get schedule "repeat"]>
              (<["chargeStopTime" := dict_get schedule "chargeStopTime"]>
                 (<["chargeStartTime" := dict_get schedule "chargeStartTime"]>
                    (<["id" := dict_get schedule "id"]> ∅)))).

Definition ChargerSession (session : gmap string PyVal) : result (gmap string PyVal) :=
  kwh <- py_float (dict_get session "kiloWattHours") ;;
  Ok (BaseDict (<["kiloWattHours" := VFloat kwh]>
                  (<["carDisconnected" := dict_get session "carDisconnected"]>
                     (<["carConnected" := dict_get session "carConnected"]> ∅)))).

(** ** Awaiting collaborators *)

(** An object owned by a collaborator (a response, a circuit, a site), known
    by its identity only. *)
Inductive Obj := mkObj (handle : nat).

(** Any Python object a collaborator hands back. *)
Inductive PyAny :=
| Value (v : PyVal)
| Object (o : Obj).

(** The calls the module awaits, with the type of what they return:
    the four verbs of the [easee] transport, the accessors of a response,
    and the three current setters of a circuit. *)
Inductive Call : Type -> Type :=
| easee_get (path : string) : Call PyAny
| easee_post (path : string) (json : option PyVal) : Call PyAny
| easee_put (path : string) (json : option PyVal) : Call PyAny
| easee_delete (path : string) : Call PyAny
| response_json (r : PyAny) : Call PyVal
| response_text (r : PyAny) : Call PyVal
| circuit_set_dynamic_current (c : PyAny) (p1 p2 p3 : PyVal) : Call PyAny
| circuit_set_max_current (c : PyAny) (p1 p2 p3 : PyVal) : Call PyAny
| circuit_set_max_offline_current (c : PyAny) (p1 p2 p3 : PyVal) : Call PyAny.

(** What a method does besides awaiting: a line to the module logger, or the
    instantiation of one of the record classes. *)
Inductive Note :=
| log_debug (msg : PyVal)
| log_info (msg : string)
| construct (cls : string).

(** A coroutine of the module: it returns, raises, leaves a note, or awaits
    a call and goes on with its outcome. *)
Inductive Prog (A : Type) : Type :=
| Ret (a : A)
| Raise (e : Exn)
| Tell (n : Note) (k : Prog A)
| Await {X : Type} (c : Call X) (k : result X -> Prog A).
Arguments Ret {A} a.
Arguments Raise {A} e.
Arguments Tell {A} n k.
Arguments Await {A X} c k.

Fixpoint bind {A B} (p : Prog A) (f : A -> Prog B) : Prog B :=
  match p with
  | Ret a => f a
  | Raise e => Raise e
  | Tell n k => Tell n (bind k f)
  | Await c k => Await c (fun r => bind (k r) f)
  end.

(** [try: p  except cls: h], where [catches e] is the handler's body when
    [e] is an instance of [cls]. *)
Fixpoint try_except {A} (p : Prog A) (catches : Exn -> option (Prog A)) : Prog A :=
  match p with
  | Ret a => Ret a
  | Raise e => default (Raise e) (catches e)
  | Tell n k => Tell n (try_except k catches)
  | Await c k => Await c (fun r => try_except (k r) catches)
  end.

Definition lift {A} (r : result A) : Prog A :=
  match r with
  | Ok a => Ret a
  | Err e => Raise e
  end.

(** [await c]: the exception of a failed call is raised in the caller. *)
Definition await {X} (c : Call X) : Prog X := Await c lift.

Definition tell (n : Note) : Prog unit := Tell n (Ret tt).

Declare Scope prog_scope.
Delimit Scope prog_scope with prog.
Notation "x <- p ;; k" := (bind p (fun x => k))
  (at level 100, p at next level, right associativity) : prog_scope.
Notation "p ;; k" := (bind p (fun _ => k))
  (at level 100, right associativity) : prog_scope.

(** [[f(x) for x in l]], stopping at the first item that raises. *)
Fixpoint for_each {A B} (f : A -> Prog B) (l : list A) : Prog (list B) :=
  match l with
  | [] => Ret []
  | x :: l => (y <- f x ;; ys <- for_each f l ;; Ret (y :: ys))%prog
  end.

(** *** Running a coroutine against its collaborators

    A collaborator answers a call from its own state [W] and moves to a new
    state; the run records every call and note in order. *)
Definition Handler (W : Type) : Type := forall X, Call X -> W -> W * result X.

Inductive Event :=
| Called {X : Type} (c : Call X)
| Noted (n : Note).

Record Outcome (W A : Type) := mkOutcome {
  trace : list Event;
  world : W;
  returned : result A;
}.
Arguments mkOutcome {W A}.
Arguments trace {W A}.
Arguments world {W A}.
Arguments returned {W A}.

Fixpoint run {W A} (h : Handler W) (p : Prog A) (w : W) : Outcome W A :=
  match p with
  | Ret a => mkOutcome [] w (Ok a)
  | Raise e => mkOutcome [] w (Err e)
  | Tell n k =>
      let o := run h k w in
      mkOutcome (Noted n :: trace o) (world o) (returned o)
  | Await c k =>
      let (w', r) := h _ c w in
      let o := run h (k r) w' in
      mkOutcome (Called c :: trace o) (world o) (returned o)
  end.

Definition is_call (ev : Event) : bool :=
  match ev with
  | Called _ => true
  | Noted _ => false
  end.

(** ** [list.sort(key=..., reverse=...)]

    The builtin sort computes every key once and then compares keys with [<]
    only; it is stable, and with [reverse] it reverses the list before and
    after sorting, so that equal keys keep their original order.  It is
    rendered by an insertion sort with these properties, which returns what
    the builtin returns whenever [<] orders the keys. *)

(** [x] goes before the first item whose key is greater than its own. *)
Fixpoint insort {A} (x : PyVal * A) (l : list (PyVal * A)) : result (list (PyVal * A)) :=
  match l with
  | [] => Ok [x]
  | y :: l' =>
      b <- py_lt (fst x) (fst y) ;;
      if (b : bool) then Ok (x :: l) else (r <- insort x l' ;; Ok (y :: r))
  end.

Definition sort_keyed {A} (l : list (PyVal * A)) : result (list (PyVal * A)) :=
  fold_left (fun acc x => acc <- acc ;; insort x acc) l (Ok []).

Fixpoint with_keys {A} (key : A -> result PyVal) (l : list A) : result (list (PyVal * A)) :=
  match l with
  | [] => Ok []
  | x :: l => k <- key x ;; r <- with_keys key l ;; Ok ((k, x) :: r)
  end.

Definition list_sort {A} (key : A -> result PyVal) (reverse : bool) (l : list A) : result (list A) :=
  keyed <- with_keys key l ;;
  sorted <- (if reverse then (r <- sort_keyed (list.reverse keyed) ;;
                              Ok (list.reverse r))
             else sort_keyed keyed) ;;
  Ok (snd <$> sorted).

(** ** Charger *)

(** A [datetime], as far as this module looks at it: the text its
    [isoformat()] renders. *)
Record datetime := { isoformat : string }.

(** The attributes [__init__] sets, with [id] and [name] the strings their
    annotations announce.  The [easee] attribute is the transport the
    [easee_*] calls are made on. *)
Record Charger := {
  entries : gmap string PyVal;
  id : string;
  name : string;
  site : PyAny;
  circuit : PyAny;
}.

(** [{**state, ...}] and [x.get] on what a response decoded to: only a dict
    unpacks as a mapping, and only a dict has [get]. *)
Definition as_mapping (v : PyVal) : result (gmap string PyVal) :=
  match v with
  | VDict d => Ok d
  | _ => Err TypeError
  end.

Definition with_get (v : PyVal) : result (gmap string PyVal) :=
  match v with
  | VDict d => Ok d
  | _ => Err AttributeError
  end.

Fixpoint chars (s : string) : list PyVal :=
  match s with
  | EmptyString => []
  | String c s' => VStr (String c EmptyString) :: chars s'
  end.

(** [for x in v]: the items of a list, the keys of a dict, the characters of
    a string.  (Every key and every character fails alike in the one loop of
    this module, so that the order of the keys of a dict is immaterial.) *)
Definition py_iter (v : PyVal) : result (list PyVal) :=
  match v with
  | VList l => Ok l
  | VDict d => Ok ((fun kv => VStr (fst kv)) <$> map_to_list d)
  | VStr s => Ok (chars s)
  | _ => Err TypeError
  end.

Section Methods.
Local Open Scope prog_scope.
Variable self : Charger.

Definition get_consumption_between_dates (from_date to_date : datetime) : Prog spec_float :=
  r <- await (easee_get ("/api/sessions/charger/" +:+ id self +:+ "/total/"
                          +:+ isoformat from_date +:+ "/" +:+ isoformat to_date)) ;;
  value <- await (response_text r) ;;
  lift (py_float value).

Definition get_sessions_between_dates (from_date to_date : datetime)
  : Prog (list (gmap string PyVal)) :=
  r <- await (easee_get ("/api/sessions/charger/" +:+ id self +:+ "/sessions/"
                          +:+ isoformat from_date +:+ "/" +:+ isoformat to_date)) ;;
  sessions <- await (response_json r) ;;
  items <- lift (py_iter sessions) ;;
  sessions <- for_each (fun session =>
                          tell (construct "ChargerSession") ;;
                          lift (session <- with_get session ;; ChargerSession session)%result)
                       items ;;
  lift (list_sort (fun x => getitem x "carConnected") true sessions).

Definition get_config (raw : bool) : Prog (gmap string PyVal) :=
  r <- await (easee_get ("/api/chargers/" +:+ id self +:+ "/config")) ;;
  config <- await (response_json r) ;;
  tell (construct "ChargerConfig") ;;
  lift (config <- as_mapping config ;; ChargerConfig config raw)%result.

Definition get_state (raw : bool) : Prog (gmap string PyVal) :=
  r <- await (easee_get ("/api/chargers/" +:+ id self +:+ "/state")) ;;
  state <- await (response_json r) ;;
  tell (construct "ChargerState") ;;
  lift (state <- as_mapping state ;; ChargerState state raw)%result.

Definition command (cmd : string) : Prog PyAny :=
  await (easee_post ("/api/chargers/" +:+ id self +:+ "/commands/" +:+ cmd) None).

Definition start : Prog PyAny := command "start_charging".
Definition pause : Prog PyAny := command "pause_charging".
Definition resume : Prog PyAny := command "resume_charging".
Definition stop : Prog PyAny := command "stop_charging".
Definition toggle : Prog PyAny := command "toggle_charging".

(** Modelled from the spec: [NotFoundException] of [pyeasee/exceptions.py] is
    not under src/.  The spec (6) has the transport signal a distinguished
    "not found" condition next to a general failure for all other errors;
    [except (NotFoundException)] catches the former and nothing else. *)
Definition is_not_found (e : Exn) : bool :=
  match e with
  | NotFoundException _ => true
  | _ => false
  end.

Definition get_basic_charge_plan : Prog (option (gmap string PyVal)) :=
  try_except
    (plan <- await (easee_get ("/api/chargers/" +:+ id self +:+ "/basic_charge_plan")) ;;
     plan <- await (response_json plan) ;;
     tell (log_debug plan) ;;
     tell (construct "ChargerSchedule") ;;
     plan <- lift (with_get plan) ;;
     Ret (Some (ChargerSchedule plan)))
    (fun e =>
       if is_not_found e then
         Some (tell (log_debug (VStr "No scheduled charge plan")) ;; Ret None)
       else None).

Definition setting (field : string) (value : PyVal) : Prog PyAny :=
  let json := VDict {[ field := value ]} in
  await (easee_post ("/api/chargers/" +:+ id self +:+ "/settings") (Some json)).

Definition enable_charger (enable : bool) : Prog PyAny := setting "enabled" (VBool enable).
Definition enable_idle_current (enable : bool) : Prog PyAny := setting "enableIdleCurrent" (VBool enable).
Definition limitToSinglePhaseCharging (enable : bool) : Prog PyAny :=
  setting "limitToSinglePhaseCharging" (VBool enable).
Definition phaseMode (mode : PyVal) : Prog PyAny := setting "phaseMode" mode.
Definition lockCablePermanently (enable : bool) : Prog PyAny := setting "lockCablePermanently" (VBool enable).
Definition smartButtonEnabled (enable : bool) : Prog PyAny := setting "smartButtonEnabled" (VBool enable).

Definition delete_basic_charge_plan : Prog PyAny :=
  await (easee_delete ("/api/chargers/" +:+ id self +:+ "/basic_charge_plan")).

Definition override_schedule : Prog PyAny := command "override_schedule".
Definition smart_charging (enable : bool) : Prog PyAny := setting "smartCharging" (VBool enable).
Definition reboot : Prog PyAny := command "reboot".
Definition update_firmware : Prog PyAny := command "update_firmware".

Definition is_None (x : PyAny) : bool :=
  match x with
  | Value VNone => true
  | _ => false
  end.

Definition set_dynamic_charger_circuit_current (currentP1 currentP2 currentP3 : PyVal) : Prog PyAny :=
  if negb (is_None (circuit self)) then
    await (circuit_set_dynamic_current (circuit self) currentP1 currentP2 currentP3)
  else
    tell (log_info "Circuit info must be initialized for dynamic current to be set") ;;
    Ret (Value VNone).

Definition set_max_charger_circuit_current (currentP1 currentP2 currentP3 : PyVal) : Prog PyAny :=
  if negb (is_None (circuit self)) then
    await (circuit_set_max_current (circuit self) currentP1 currentP2 currentP3)
  else
    tell (log_info "Circuit info must be initialized for max current to be set") ;;
    Ret (Value VNone).

Definition set_max_offline_charger_circuit_current (currentP1 currentP2 currentP3 : PyVal) : Prog PyAny :=
  if negb (is_None (circuit self)) then
    await (circuit_set_max_offline_current (circuit self) currentP1 currentP2 currentP3)
  else
    tell (log_info "Circuit info must be initialized for offline current to be set") ;;
    Ret (Value VNone).

Definition set_dynamic_charger_current (current : PyVal) : Prog PyAny :=
  setting "dynamicChargerCurrent" current.
Definition set_max_charger_current (current : PyVal) : Prog PyAny :=
  setting "maxChargerCurrent" current.

Definition set_access (access : PyVal) : Prog PyAny :=
  let json : list (Scalar * Z) :=
    [ (SInt 1, 1);
      (SInt 2, 2);
      (SInt 3, 3);
      (SStr "open_for_all", 1);
      (SStr "easee_account_required", 2);
      (SStr "whitelist", 3) ] in
  code <- lift (table_getitem json access) ;;
  await (easee_put ("/api/chargers/" +:+ id self +:+ "/access") (Some (VInt code))).

Definition delete_access : Prog PyAny :=
  await (easee_delete ("/api/chargers/" +:+ id self +:+ "/access")).

End Methods.

(** ** Collaborators seen from outside *)

(** What the transport answers to a GET of [path] followed by [json()] on
    the response: the document, or the exception either call raised. *)
Definition get_json {W} (h : Handler W) (path : string) (w : W) : W * result PyVal :=
  let (w1, r) := h _ (easee_get path) w in
  match r with
  | Ok resp => h _ (response_json resp) w1
  | Err e => (w1, Err e)
  end.

(** A test double for the collaborators.  Its state counts the calls it has
    answered; a GET is answered by [get_reply], [json()] by [json_reply],
    the other verbs by a response object and a circuit by its own result. *)
Definition spy (get_reply : result PyAny) (json_reply : result PyVal) : Handler nat :=
  fun X (c : Call X) (n : nat) =>
    (S n,
     match c in Call X return result X with
     | easee_get _ => get_reply
     | easee_post _ _ | easee_put _ _ | easee_delete _ => Ok (Object (mkObj 0))
     | response_json _ => json_reply
     | response_text _ => Ok (VStr "0")
     | circuit_set_dynamic_current _ _ _ _
     | circuit_set_max_current _ _ _ _
     | circuit_set_max_offline_current _ _ _ _ => Ok (Object (mkObj 1))
     end).

(** A charger as the listing hands it out, without and with a circuit. *)
Definition charger_EH12345 : Charger :=
  {| entries := {[ "id" := VStr "EH12345"; "name" := VStr "Garage" ]};
     id := "EH12345";
     name := "Garage";
     site := Value VNone;
     circuit := Value VNone |}.

Definition charger_on_circuit : Charger :=
  {| entries := {[ "id" := VStr "EH12345"; "name" := VStr "Garage" ]};
     id := "EH12345";
     name := "Garage";
     site := Object (mkObj 7);
     circuit := Object (mkObj 8) |}.

(** A response of four sessions: two of them share a timestamp, and the
    energies come as an integer, a float, a string and an integer. *)
Definition session_A : gmap string PyVal :=
  {[ "carConnected" := VStr "2021-03-02T08:00:00Z"; "carDisconnected" := VStr "2021-03-02T09:00:00Z";
     "kiloWattHours" := VInt 10 ]}.
Definition session_B : gmap string PyVal :=
  {[ "carConnected" := VStr "2021-03-01T08:00:00Z"; "carDisconnected" := VNone;
     "kiloWattHours" := VFloat (S754_finite false 5910974510923776 (-49)) ]}.
Definition session_C : gmap string PyVal :=
  {[ "carConnected" := VStr "2021-03-02T08:00:00Z"; "carDisconnected" := VStr "2021-03-02T10:30:00Z";
     "kiloWattHours" := VStr "10.5"; "id" := VInt 3 ]}.
Definition session_D : gmap string PyVal :=
  {[ "carConnected" := VStr "2021-03-03T08:00:00Z"; "kiloWattHours" := VInt 0 ]}.

Definition four_sessions : PyVal :=
  VList [VDict session_A; VDict session_B; VDict session_C; VDict session_D].

Definition a_datetime (text : string) : datetime := {| isoformat := text |}.

(** A text without a closing parenthesis. *)
Fixpoint no_paren (s : string) : Prop :=
  match s with
  | EmptyString => True
  | String c s' => c <> ")"%char /\ no_paren s'
  end.

(** ** Vocabulary of the statements about sorting *)

(** The timestamp of a session, when it is text. *)
Definition connected_at (s : gmap string PyVal) : string :=
  match s !! "carConnected" with
  | Some (VStr t) => t
  | _ => EmptyString
  end.

(** [a["carConnected"] < b["carConnected"]], as the sort evaluates it. *)
Definition connected_lt (a b : gmap string PyVal) : result bool :=
  ka <- getitem a "carConnected" ;;
  kb <- getitem b "carConnected" ;;
  py_lt ka kb.

(** What a session payload must hold for the listing to go through: a
    timestamp in text form and an energy that [float] accepts. *)
Definition session_payload (p : gmap string PyVal) : Prop :=
  (exists t, p !! "carConnected" = Some (VStr t)) /\
  (exists f, py_float (dict_get p "kiloWattHours") = Ok f).

(** The insertion sort of [list_sort] on items whose keys are strings. *)
Section InsertionSort.
Context {A : Type} (key : A -> string).

Fixpoint insert_by (x : A) (l : list A) : list A :=
  match l with
  | [] => [x]
  | y :: l' => if String.ltb (key x) (key y) then x :: l else y :: insert_by x l'
  end.

Definition isort_by (l : list A) : list A :=
  fold_left (fun acc x => insert_by x acc) l [].

Definition keyed (x : A) : PyVal * A := (VStr (key x), x).

Definition le_key (a b : A) : Prop := String.le (key a) (key b).

End InsertionSort.

(** ** Vocabulary of the statements about the facade *)

(** The record a session payload gives, when it gives one. *)
Definition session_of (p : gmap string PyVal) : gmap string PyVal :=
  match ChargerSession p with
  | Ok s => s
  | Err _ => ∅
  end.

(** What the listing does with one item of the response. *)
Definition session_item (x : PyVal) : result (gmap string PyVal) :=
  (session <- with_get x ;; ChargerSession session)%result.

(** The operations that are one call on the transport: the commands, the
    settings and the two deletions, for a switch [enable] and a value [v]. *)
Definition single_call_operations (self : Charger) (enable : bool) (v : PyVal)
  : list (Prog PyAny) :=
  [ start self; pause self; resume self; stop self; toggle self;
    enable_charger self enable; enable_idle_current self enable;
    limitToSinglePhaseCharging self enable; phaseMode self v;
    lockCablePermanently self enable; smartButtonEnabled self enable;
    delete_basic_charge_plan self; override_schedule self;
    smart_charging self enable; reboot self; update_firmware self;
    set_dynamic_charger_current self v; set_max_charger_current self v;
    delete_access self ].

(** The path a call on the transport is made on. *)
Definition call_path {X} (c : Call X) : option string :=
  match c with
  | easee_get path | easee_post path _ | easee_put path _ | easee_delete path => Some path
  | _ => None
  end.

(** The body a call on the transport carries. *)
Definition call_body {X} (c : Call X) : option PyVal :=
  match c with
  | easee_post _ json | easee_put _ json => json
  | _ => None
  end.

(** A coroutine that is one call on a path of this charger, without a body
    or with a body of one field, and whose run is the run of that call. *)
Definition one_call_on (self : Charger) (p : Prog PyAny) : Prop :=
  exists c : Call PyAny,
    (exists suffix, call_path c = Some ("/api/chargers/" +:+ id self +:+ suffix)) /\
    (call_body c = None \/
     exists field value, call_body c = Some (VDict {[ field := value ]})) /\
    forall W (h : Handler W) (w : W),
      run h p w = mkOutcome [Called c] (fst (h _ c w)) (snd (h _ c w)).

(** What the transport answers to a GET of [path] followed by [text()] on
    the response. *)
Definition get_text {W} (h : Handler W) (path : string) (w : W) : W * result PyVal :=
  let (w1, r) := h _ (easee_get path) w in
  match r with
  | Ok resp => h _ (response_text resp) w1
  | Err e => (w1, Err e)
  end.

(** The keys the tables of this module are written with: integers, strings
    and [None]. *)
Definition plain_key (k : Scalar) : Prop :=
  match k with
  | SInt _ | SStr _ | SNone => True
  | SBool _ | SFloat _ => False
  end.

(** The paths of the calls of a trace, in order. *)
Definition event_path (ev : Event) : option string :=
  match ev with
  | Called c => call_path c
  | Noted _ => None
  end.

Definition paths_called (t : list Event) : list string := omap event_path t.

(** The test double with [text()] answered by [text_reply]. *)
Definition spy_text (text_reply : result PyVal) : Handler nat :=
  fun X (c : Call X) (n : nat) =>
    match c in Call X return nat * result X with
    | response_text _ => (S n, text_reply)
    | c => spy (Ok (Object (mkObj 0))) (Ok VNone) _ c n
    end.

(** A text of white space only (the empty text is one). *)
Fixpoint blank (s : string) : bool :=
  match s with
  | EmptyString => true
  | String c s' => Ascii.is_space c && blank s'
  end.

(** * Properties *)

(** ** Table lookups *)

Lemma scalar_eq_int (a b : Z) : scalar_eq (SInt a) (SInt b) = (a =? b).
Proof.
  unfold scalar_eq, num_of_scalar, num_compare, dyadic_compare.
  rewrite Z.min_id, Z.sub_diag, Z.pow_0_r, !Z.mul_1_r.
  destruct (Z.compare_spec a b) as [->| |]; symmetry.
  - apply Z.eqb_refl.
  - apply Z.eqb_neq. lia.
  - apply Z.eqb_neq. lia.
Qed.

Lemma scalar_eq_none_int (z : Z) : scalar_eq SNone (SInt z) = false.
Proof. reflexivity. Qed.

Lemma scalar_eq_str_int (s : string) (z : Z) : scalar_eq (SStr s) (SInt z) = false.
Proof. reflexivity. Qed.

Ltac table_cases :=
  cbn [table_find];
  rewrite ?scalar_eq_none_int, ?scalar_eq_str_int, ?scalar_eq_int;
  repeat (match goal with
          | |- context [Z.eqb ?a ?b] => destruct (Z.eqb_spec a b)
          end);
  try reflexivity; try lia.

Lemma STATUS_known (z : Z) (lbl : string) :
  0 <= z <= 6 ->
  ["OFFLINE"; "DISCONNECTED"; "AWAITING_START"; "CHARGING"; "COMPLETED"; "ERROR";
   "READY_TO_CHARGE"] !! Z.to_nat z = Some lbl ->
  table_find STATUS (SInt z) = Some lbl.
Proof.
  intros Hz Hl.
  assert (z = 0 \/ z = 1 \/ z = 2 \/ z = 3 \/ z = 4 \/ z = 5 \/ z = 6) as Hc by lia.
  destruct Hc as [->|[->|[->|[->|[->|[->| ->]]]]]]; cbn in Hl; rewrite <- Hl; reflexivity.
Qed.

Lemma STATUS_unknown (z : Z) : z < 0 \/ 6 < z -> table_find STATUS (SInt z) = None.
Proof. intros Hz. unfold STATUS. table_cases. Qed.

Lemma NODE_TYPE_unknown (z : Z) : z <> 1 -> z <> 2 -> table_find NODE_TYPE (SInt z) = None.
Proof. intros H1 H2. unfold NODE_TYPE. table_cases. Qed.

Lemma PHASE_MODE_unknown (z : Z) :
  z <> 1 -> z <> 2 -> z <> 3 -> table_find PHASE_MODE (SInt z) = None.
Proof. intros H1 H2 H3. unfold PHASE_MODE. table_cases. Qed.

Lemma getitem_Some (d : gmap string PyVal) (k : string) (v : PyVal) :
  d !! k = Some v -> getitem d k = Ok v.
Proof. intros H. unfold getitem. rewrite H. reflexivity. Qed.

Lemma getitem_None (d : gmap string PyVal) (k : string) :
  d !! k = None -> getitem d k = Err (KeyError (VStr k)).
Proof. intros H. unfold getitem. rewrite H. reflexivity. Qed.

Lemma getitem_Ok_inv (d : gmap string PyVal) (k : string) (v : PyVal) :
  getitem d k = Ok v -> d !! k = Some v.
Proof. unfold getitem. destruct (d !! k); congruence. Qed.

(** How the decoded constructor goes, step by step. *)
Lemma ChargerState_decoded (state : gmap string PyVal) (mode code : PyVal) (status reason : string) :
  state !! "chargerOpMode" = Some mode ->
  table_getitem STATUS mode = Ok status ->
  state !! "reasonForNoCurrent" = Some code ->
  reason_text code = Ok reason ->
  ChargerState state false
  = Ok (<["reasonForNoCurrent" := VStr reason]> (<["chargerOpMode" := VStr status]> state)).
Proof.
  intros Hm Hs Hc Hr. unfold ChargerState; cbn [negb].
  rewrite (getitem_Some _ _ _ Hm); cbn [rbind]. rewrite Hs; cbn [rbind].
  rewrite (getitem_Some _ _ _ Hc); cbn [rbind]. rewrite Hr. reflexivity.
Qed.

Lemma ChargerState_decoded_inv (state d : gmap string PyVal) :
  ChargerState state false = Ok d ->
  exists mode code status reason,
    state !! "chargerOpMode" = Some mode /\
    table_getitem STATUS mode = Ok status /\
    state !! "reasonForNoCurrent" = Some code /\
    reason_text code = Ok reason /\
    d = <["reasonForNoCurrent" := VStr reason]> (<["chargerOpMode" := VStr status]> state).
Proof.
  unfold ChargerState; cbn [negb]. intros H.
  destruct (getitem state "chargerOpMode") as [mode|] eqn:Hm; [|discriminate].
  cbn [rbind] in H.
  destruct (table_getitem STATUS mode) as [status|] eqn:Hs; [|discriminate].
  cbn [rbind] in H.
  destruct (getitem state "reasonForNoCurrent") as [code|] eqn:Hc; [|discriminate].
  cbn [rbind] in H.
  destruct (reason_text code) as [reason|] eqn:Hr; [|discriminate].
  cbn [rbind] in H. injection H as <-.
  exists mode, code, status, reason.
  repeat split; auto using getitem_Ok_inv.
Qed.

Lemma ChargerState_raw (state : gmap string PyVal) (code : PyVal) :
  state !! "reasonForNoCurrent" = Some code ->
  ChargerState state true
  = Ok (<["reasonForNoCurrent" := match code with VNone => VStr "none" | _ => code end]> state).
Proof.
  intros Hc. unfold ChargerState; cbn [negb].
  rewrite (getitem_Some _ _ _ Hc). reflexivity.
Qed.

Lemma table_getitem_int {V} (tbl : list (Scalar * V)) (z : Z) (v : V) :
  table_find tbl (SInt z) = Some v -> table_getitem tbl (VInt z) = Ok v.
Proof. intros H. unfold table_getitem, hashable; cbn [rbind]. rewrite H. reflexivity. Qed.

Lemma table_getitem_missing {V} (tbl : list (Scalar * V)) (a : Scalar) :
  table_find tbl a = None -> table_getitem tbl (VScalar a) = Err (KeyError (VScalar a)).
Proof. intros H. unfold table_getitem, hashable; cbn [rbind]. rewrite H. reflexivity. Qed.

Lemma reason_text_scalar (a : Scalar) :
  reason_text (VScalar a)
  = Ok ("(" +:+ str_scalar a +:+ ") " +:+ default "Unknown" (table_find REASON_FOR_NO_CURRENT a)).
Proof. reflexivity. Qed.

(** ** Decoding of the enum fields *)

(** C3: in decoded mode [chargerOpMode] 0..6 becomes the label of that rank
    in the status table, and an integer outside 0..6 makes the construction
    raise [KeyError]; [localNodeType] and [phaseMode] of a decoded
    [ChargerConfig] go through their tables of two and three labels and raise
    [KeyError] on any other integer. *)
Theorem decoded_enum_tables :
  (forall (state : gmap string PyVal) (z : Z) (c : Scalar) (lbl : string),
      state !! "chargerOpMode" = Some (VInt z) ->
      0 <= z <= 6 ->
      ["OFFLINE"; "DISCONNECTED"; "AWAITING_START"; "CHARGING"; "COMPLETED"; "ERROR";
       "READY_TO_CHARGE"] !! Z.to_nat z = Some lbl ->
      state !! "reasonForNoCurrent" = Some (VScalar c) ->
      exists d, ChargerState state false = Ok d /\
                d !! "chargerOpMode" = Some (VStr lbl)) /\
  (forall (state : gmap string PyVal) (z : Z),
      state !! "chargerOpMode" = Some (VInt z) ->
      z < 0 \/ 6 < z ->
      ChargerState state false = Err (KeyError (VInt z))) /\
  (forall (config : gmap string PyVal) (n p : Z) (nlbl plbl : string),
      config !! "localNodeType" = Some (VInt n) ->
      [(1, "Master"); (2, "Extender")] !! Z.to_nat (n - 1) = Some (n, nlbl) ->
      config !! "phaseMode" = Some (VInt p) ->
      [(1, "Locked to single phase"); (2, "Auto"); (3, "Locked to three phase")]
        !! Z.to_nat (p - 1) = Some (p, plbl) ->
      exists d, ChargerConfig config false = Ok d /\
                d !! "localNodeType" = Some (VStr nlbl) /\
                d !! "phaseMode" = Some (VStr plbl)) /\
  (forall (config : gmap string PyVal) (n : Z),
      config !! "localNodeType" = Some (VInt n) ->
      n < 1 \/ 2 < n ->
      ChargerConfig config false = Err (KeyError (VInt n))) /\
  (forall (config : gmap string PyVal) (n p : Z),
      config !! "localNodeType" = Some (VInt n) ->
      1 <= n <= 2 ->
      config !! "phaseMode" = Some (VInt p) ->
      p < 1 \/ 3 < p ->
      ChargerConfig config false = Err (KeyError (VInt p))).
Proof.
  repeat split.
  - intros state z c lbl Hm Hz Hl Hc.
    rewrite (ChargerState_decoded state (VInt z) (VScalar c) lbl _ Hm
               (table_getitem_int _ _ _ (STATUS_known z lbl Hz Hl)) Hc (reason_text_scalar c)).
    eexists. split; [reflexivity|].
    rewrite lookup_insert_ne by discriminate. apply lookup_insert_eq.
  - intros state z Hm Hz. unfold ChargerState; cbn [negb].
    rewrite (getitem_Some _ _ _ Hm); cbn [rbind].
    rewrite (table_getitem_missing _ _ (STATUS_unknown z Hz)). reflexivity.
  - intros config n p nlbl plbl Hn Hnl Hp Hpl.
    unfold ChargerConfig; cbn [negb].
    rewrite (getitem_Some _ _ _ Hn), (getitem_Some _ _ _ Hp); cbn [rbind].
    assert (table_find NODE_TYPE (SInt n) = Some nlbl) as Hn'.
    { destruct (Z.to_nat (n - 1)) as [|[|[|?]]] eqn:E; cbn in Hnl; try discriminate;
        injection Hnl as <- <-; reflexivity. }
    assert (table_find PHASE_MODE (SInt p) = Some plbl) as Hp'.
    { destruct (Z.to_nat (p - 1)) as [|[|[|?]]] eqn:E; cbn in Hpl; try discriminate;
        injection Hpl as <- <-; reflexivity. }
    rewrite (table_getitem_int _ _ _ Hn'); cbn [rbind].
    rewrite (table_getitem_int _ _ _ Hp'); cbn [rbind].
    eexists. split; [reflexivity|]. unfold BaseDict. split.
    + rewrite lookup_insert_ne by discriminate. apply lookup_insert_eq.
    + apply lookup_insert_eq.
  - intros config n Hn Hz. unfold ChargerConfig; cbn [negb].
    rewrite (getitem_Some _ _ _ Hn); cbn [rbind].
    rewrite (table_getitem_missing NODE_TYPE (SInt n)) by (apply NODE_TYPE_unknown; lia).
    reflexivity.
  - intros config n p Hn Hz Hp Hpz. unfold ChargerConfig; cbn [negb].
    rewrite (getitem_Some _ _ _ Hn), (getitem_Some _ _ _ Hp); cbn [rbind].
    assert (exists l, table_find NODE_TYPE (SInt n) = Some l) as [l Hl].
    { assert (n = 1 \/ n = 2) as [-> | ->] by lia; eexists; reflexivity. }
    rewrite (table_getitem_int _ _ _ Hl); cbn [rbind].
    rewrite (table_getitem_missing PHASE_MODE (SInt p)) by (apply PHASE_MODE_unknown; lia).
    reflexivity.
Qed.

Lemma decoded_enum_tables_witness :
  (exists d, ChargerState {[ "chargerOpMode" := VInt 3; "reasonForNoCurrent" := VInt 0 ]} false = Ok d /\
             d !! "chargerOpMode" = Some (VStr "CHARGING")) /\
  ChargerState {[ "chargerOpMode" := VInt 7; "reasonForNoCurrent" := VInt 0 ]} false
  = Err (KeyError (VInt 7)) /\
  (exists d, ChargerConfig {[ "localNodeType" := VInt 2; "phaseMode" := VInt 1 ]} false = Ok d /\
             d !! "localNodeType" = Some (VStr "Extender") /\
             d !! "phaseMode" = Some (VStr "Locked to single phase")) /\
  ChargerConfig {[ "localNodeType" := VInt 0; "phaseMode" := VInt 1 ]} false
  = Err (KeyError (VInt 0)) /\
  ChargerConfig {[ "localNodeType" := VInt 1; "phaseMode" := VInt 4 ]} false
  = Err (KeyError (VInt 4)).
Proof.
  destruct decoded_enum_tables as (H1 & H2 & H3 & H4 & H5).
  split; [|split; [|split; [|split]]].
  - apply (H1 _ 3 (SInt 0)); [reflexivity | lia | reflexivity | reflexivity].
  - apply H2; [reflexivity | lia].
  - apply (H3 _ 2 1); reflexivity.
  - apply H4; [reflexivity | lia].
  - apply (H5 _ 1 4); [reflexivity | lia | reflexivity | lia].
Defined.

(** ** [reasonForNoCurrent] *)

(** C2, as the code has it: for a payload whose [reasonForNoCurrent] is
    [None], the decoded record holds the text ["(None) No reason"] (the label
    of the table behind the code in parentheses, as for every other code),
    and the raw record holds ["none"]. *)
Theorem reason_none_decoded_and_raw (state : gmap string PyVal) :
  state !! "reasonForNoCurrent" = Some VNone ->
  (forall d, ChargerState state false = Ok d ->
             d !! "reasonForNoCurrent" = Some (VStr "(None) No reason")) /\
  (forall mode status,
      state !! "chargerOpMode" = Some mode ->
      table_getitem STATUS mode = Ok status ->
      exists d, ChargerState state false = Ok d) /\
  (exists d, ChargerState state true = Ok d /\
             d !! "reasonForNoCurrent" = Some (VStr "none")).
Proof.
  intros Hc. repeat split.
  - intros d Hd.
    destruct (ChargerState_decoded_inv _ _ Hd) as (mode & code & status & reason & _ & _ & Hc' & Hr & ->).
    rewrite Hc in Hc'. injection Hc' as <-.
    rewrite reason_text_scalar in Hr. injection Hr as <-.
    apply lookup_insert_eq.
  - intros mode status Hm Hs.
    rewrite (ChargerState_decoded state mode VNone status _ Hm Hs Hc (reason_text_scalar _)).
    eexists. reflexivity.
  - rewrite (ChargerState_raw _ _ Hc). eexists. split; [reflexivity|].
    apply lookup_insert_eq.
Qed.

Lemma reason_none_decoded_and_raw_witness :
  (exists d, ChargerState {[ "chargerOpMode" := VInt 3; "reasonForNoCurrent" := VNone ]} false = Ok d /\
             d !! "reasonForNoCurrent" = Some (VStr "(None) No reason")) /\
  (exists d, ChargerState {[ "chargerOpMode" := VInt 3; "reasonForNoCurrent" := VNone ]} true = Ok d /\
             d !! "reasonForNoCurrent" = Some (VStr "none")).
Proof.
  destruct (reason_none_decoded_and_raw
              {[ "chargerOpMode" := VInt 3; "reasonForNoCurrent" := VNone ]})
    as (H1 & H2 & H3); [reflexivity|].
  split; [|exact H3].
  destruct (H2 (VInt 3) "CHARGING") as [d Hd]; [reflexivity..|].
  exists d. split; [exact Hd | exact (H1 d Hd)].
Defined.

(** C2 as the spec words it fails: the decoded text for a [None] reason is
    not the bare label ["No reason"]. *)
Lemma reason_none_decoded_counterexample :
  exists d,
    ChargerState {[ "chargerOpMode" := VInt 3; "reasonForNoCurrent" := VNone ]} false = Ok d /\
    d !! "reasonForNoCurrent" = Some (VStr "(None) No reason") /\
    d !! "reasonForNoCurrent" <> Some (VStr "No reason").
Proof.
  eexists. split; [reflexivity|]. split; [reflexivity|]. discriminate.
Qed.

(** The decimal text of an integer has no parenthesis in it, so that the
    code can be read back from the text between the parentheses. *)
Lemma pretty_N_go_no_paren (x : N) (s : string) :
  no_paren s -> no_paren (pretty_N_go x s).
Proof.
  revert s. induction (N.lt_wf_0 x) as [x _ IH]; intros s Hs.
  destruct (decide (x = 0)%N) as [-> | Hx].
  - rewrite pretty_N_go_0. exact Hs.
  - rewrite pretty_N_go_step by lia. apply IH.
    + apply N.div_lt; lia.
    + split; [|exact Hs].
      unfold pretty_N_char. repeat case_match; discriminate.
Qed.

Lemma pretty_Z_no_paren (z : Z) : no_paren (pretty z).
Proof.
  assert (forall p : positive, no_paren (pretty p)) as Hp.
  { intros p. unfold pretty, pretty_positive, pretty, pretty_N.
    case_decide; [discriminate|]. apply pretty_N_go_no_paren. exact I. }
  destruct z as [|p|p]; unfold pretty, pretty_Z.
  - split; [discriminate|exact I].
  - apply Hp.
  - split; [discriminate|apply Hp].
Qed.

Lemma app_paren_inj (s s' r r' : string) :
  no_paren s -> no_paren s' ->
  s +:+ String ")" r = s' +:+ String ")" r' -> s = s'.
Proof.
  revert s'. induction s as [|c s IH]; intros [|c' s'] Hs Hs' E.
  - reflexivity.
  - injection E as E _. destruct Hs' as [Hc _]. congruence.
  - injection E as E _. destruct Hs as [Hc _]. congruence.
  - injection E as -> E. destruct Hs as [_ Hs], Hs' as [_ Hs'].
    f_equal. apply IH; assumption.
Qed.

(** C4: for an integer reason code [z] the decoded text is ["(z) label"],
    with the label of the table, or ["Unknown"] when the table has no entry
    for [z]; the decoding of the field never raises, the code can be read
    back from the text, and the construction yields that text whenever
    [chargerOpMode] decodes. *)
Theorem reason_code_decoded (z : Z) :
  let label := default "Unknown" (table_find REASON_FOR_NO_CURRENT (SInt z)) in
  reason_text (VInt z) = Ok ("(" +:+ pretty z +:+ ") " +:+ label) /\
  (table_find REASON_FOR_NO_CURRENT (SInt z) = None -> label = "Unknown") /\
  (forall z', reason_text (VInt z') = reason_text (VInt z) -> z' = z) /\
  (forall (state : gmap string PyVal) (mode : PyVal) (status : string),
      state !! "reasonForNoCurrent" = Some (VInt z) ->
      state !! "chargerOpMode" = Some mode ->
      table_getitem STATUS mode = Ok status ->
      exists d, ChargerState state false = Ok d /\
                d !! "reasonForNoCurrent" = Some (VStr ("(" +:+ pretty z +:+ ") " +:+ label))).
Proof.
  intros label. split; [reflexivity|]. split; [|split].
  - unfold label. intros ->. reflexivity.
  - intros z' E. rewrite !reason_text_scalar in E. injection E as E.
    cbn [str_scalar] in E.
    apply (inj pretty). symmetry.
    eapply (app_paren_inj (pretty z) (pretty z')); [apply pretty_Z_no_paren..|].
    symmetry. exact E.
  - intros state mode status Hc Hm Hs.
    rewrite (ChargerState_decoded state mode (VInt z) status _ Hm Hs Hc (reason_text_scalar _)).
    eexists. split; [reflexivity|]. apply lookup_insert_eq.
Qed.

Lemma reason_code_decoded_witness :
  reason_text (VInt 77) = Ok "(77) Unknown" /\
  default "Unknown" (table_find REASON_FOR_NO_CURRENT (SInt 77)) = "Unknown" /\
  77 = 77 /\
  exists d, ChargerState {[ "chargerOpMode" := VInt 3; "reasonForNoCurrent" := VInt 0 ]} false = Ok d /\
            d !! "reasonForNoCurrent" = Some (VStr "(0) No reason, charging or ready to charge").
Proof.
  destruct (reason_code_decoded 77) as (H1 & H2 & H3 & _).
  split; [exact H1|]. split; [apply H2; reflexivity|]. split; [apply H3; reflexivity|].
  apply (proj2 (proj2 (proj2 (reason_code_decoded 0))) _ (VInt 3) "CHARGING"); reflexivity.
Defined.

(** The codes of the reason table are 0..6, 9 and 50..55. *)
Lemma REASON_FOR_NO_CURRENT_unknown (z : Z) :
  ~ (0 <= z <= 6) -> z <> 9 -> ~ (50 <= z <= 55) ->
  table_find REASON_FOR_NO_CURRENT (SInt z) = None.
Proof. intros H1 H2 H3. unfold REASON_FOR_NO_CURRENT. table_cases. Qed.

(** ** What the constructors keep *)

Lemma ChargerState_raw_inv (state d : gmap string PyVal) :
  ChargerState state true = Ok d ->
  exists code, state !! "reasonForNoCurrent" = Some code /\
               d = <["reasonForNoCurrent" := match code with VNone => VStr "none" | _ => code end]> state.
Proof.
  unfold ChargerState; cbn [negb]. intros H.
  destruct (getitem state "reasonForNoCurrent") as [code|] eqn:Hc; [|discriminate].
  cbn [rbind] in H. injection H as <-.
  exists code. split; [apply getitem_Ok_inv, Hc | reflexivity].
Qed.

Lemma ChargerConfig_decoded_inv (config d : gmap string PyVal) :
  ChargerConfig config false = Ok d ->
  exists node phase nlbl plbl,
    config !! "localNodeType" = Some node /\
    table_getitem NODE_TYPE node = Ok nlbl /\
    config !! "phaseMode" = Some phase /\
    table_getitem PHASE_MODE phase = Ok plbl /\
    d = <["phaseMode" := VStr plbl]> (<["localNodeType" := VStr nlbl]> config).
Proof.
  unfold ChargerConfig; cbn [negb]. intros H.
  destruct (getitem config "localNodeType") as [node|] eqn:Hn; [|discriminate].
  cbn [rbind] in H.
  destruct (table_getitem NODE_TYPE node) as [nlbl|] eqn:Hnl; [|discriminate].
  cbn [rbind] in H.
  destruct (getitem config "phaseMode") as [phase|] eqn:Hp; [|discriminate].
  cbn [rbind] in H.
  destruct (table_getitem PHASE_MODE phase) as [plbl|] eqn:Hpl; [|discriminate].
  cbn [rbind] in H. injection H as <-.
  exists node, phase, nlbl, plbl. repeat split; auto using getitem_Ok_inv.
Qed.

Lemma dom_insert_present (m : gmap string PyVal) (k : string) (v : PyVal) :
  is_Some (m !! k) -> dom (<[k := v]> m) = dom m.
Proof.
  intros Hk. rewrite dom_insert_L.
  apply elem_of_dom in Hk. set_solver.
Qed.

(** C7: a raw [ChargerConfig] is the payload itself; a raw [ChargerState] is
    the payload with, at most, a [None] under [reasonForNoCurrent] replaced
    by ["none"], so that [chargerOpMode] and every other field keep their
    value; and in raw and decoded mode alike the record has exactly the keys
    of the payload. *)
Theorem raw_mode_frame :
  (forall config : gmap string PyVal, ChargerConfig config true = Ok config) /\
  (forall state d : gmap string PyVal,
      ChargerState state true = Ok d ->
      (forall k, k <> "reasonForNoCurrent" -> d !! k = state !! k) /\
      (state !! "reasonForNoCurrent" = Some VNone ->
       d !! "reasonForNoCurrent" = Some (VStr "none")) /\
      (state !! "reasonForNoCurrent" <> Some VNone -> d = state)) /\
  (forall (state d : gmap string PyVal) (raw : bool),
      ChargerState state raw = Ok d -> dom d = dom state) /\
  (forall (config d : gmap string PyVal) (raw : bool),
      ChargerConfig config raw = Ok d -> dom d = dom config).
Proof.
  split; [reflexivity|]. split; [|split].
  - intros state d Hd.
    destruct (ChargerState_raw_inv _ _ Hd) as (code & Hc & ->).
    split; [|split].
    + intros k Hk. apply lookup_insert_ne. congruence.
    + intros Hn. assert (code = VNone) as -> by congruence. apply lookup_insert_eq.
    + intros Hn. apply insert_id. rewrite Hc.
      destruct code as [[]| |]; congruence.
  - intros state d [] Hd.
    + destruct (ChargerState_raw_inv _ _ Hd) as (code & Hc & ->).
      apply dom_insert_present. eauto.
    + destruct (ChargerState_decoded_inv _ _ Hd) as (mode & code & status & reason & Hm & _ & Hc & _ & ->).
      rewrite dom_insert_present.
      * apply dom_insert_present. eauto.
      * rewrite lookup_insert_ne by discriminate. eauto.
  - intros config d [] Hd.
    + cbn in Hd. injection Hd as <-. reflexivity.
    + destruct (ChargerConfig_decoded_inv _ _ Hd) as (node & phase & nlbl & plbl & Hn & _ & Hp & _ & ->).
      rewrite dom_insert_present.
      * apply dom_insert_present. eauto.
      * rewrite lookup_insert_ne by discriminate. eauto.
Qed.

Lemma raw_mode_frame_witness :
  let state : gmap string PyVal :=
    {[ "chargerOpMode" := VInt 9; "reasonForNoCurrent" := VNone; "cableLocked" := VBool true ]} in
  let d : gmap string PyVal :=
    {[ "chargerOpMode" := VInt 9; "reasonForNoCurrent" := VStr "none"; "cableLocked" := VBool true ]} in
  let state' : gmap string PyVal :=
    {[ "chargerOpMode" := VInt 9; "reasonForNoCurrent" := VInt 2 ]} in
  let config : gmap string PyVal := {[ "localNodeType" := VInt 1; "phaseMode" := VInt 2 ]} in
  let c : gmap string PyVal :=
    {[ "localNodeType" := VStr "Master"; "phaseMode" := VStr "Auto" ]} in
  d !! "chargerOpMode" = state !! "chargerOpMode" /\
  d !! "reasonForNoCurrent" = Some (VStr "none") /\
  state' = state' /\
  dom d = dom state /\
  dom c = dom config.
Proof.
  intros state d state' config c.
  destruct raw_mode_frame as (_ & H2 & H3 & H4).
  assert (ChargerState state true = Ok d) as Hd by reflexivity.
  assert (ChargerState state' true = Ok state') as Hd' by reflexivity.
  assert (ChargerConfig config false = Ok c) as Hc by reflexivity.
  destruct (H2 state d Hd) as (Hk & Hn & _).
  destruct (H2 state' state' Hd') as (_ & _ & He).
  split; [apply Hk; discriminate|].
  split; [apply Hn; reflexivity|].
  split; [apply He; discriminate|].
  split; [exact (H3 state d true Hd) | exact (H4 config c false Hc)].
Defined.

(** ** Missing fields *)

(** C10, amended: without the [reasonForNoCurrent] key the construction of
    a [ChargerState] raises [KeyError] in raw mode, and in decoded mode when
    [chargerOpMode] is absent or a scalar (as any code is); decoded mode
    raises [KeyError] on [chargerOpMode] when that is the missing key, and
    [TypeError] when [chargerOpMode] holds a list or a dict, whatever else
    the payload has; a [ChargerSchedule] is built from any payload, with
    [None] for each of its four fields the payload lacks. *)
Theorem missing_fields :
  (forall state : gmap string PyVal,
      state !! "reasonForNoCurrent" = None ->
      ChargerState state true = Err (KeyError (VStr "reasonForNoCurrent"))) /\
  (forall state : gmap string PyVal,
      state !! "reasonForNoCurrent" = None ->
      (forall mode, state !! "chargerOpMode" = Some mode -> exists a, mode = VScalar a) ->
      exists key, ChargerState state false = Err (KeyError key)) /\
  (forall state : gmap string PyVal,
      state !! "chargerOpMode" = None ->
      ChargerState state false = Err (KeyError (VStr "chargerOpMode"))) /\
  (forall (state : gmap string PyVal) (mode : PyVal),
      state !! "chargerOpMode" = Some mode ->
      (forall a, mode <> VScalar a) ->
      ChargerState state false = Err TypeError) /\
  (forall schedule : gmap string PyVal,
      dom (ChargerSchedule schedule)
      = ({["id"; "chargeStartTime"; "chargeStopTime"; "repeat"]} : gset string) /\
      forall k, k ∈ ["id"; "chargeStartTime"; "chargeStopTime"; "repeat"] ->
                ChargerSchedule schedule !! k = Some (default VNone (schedule !! k))).
Proof.
  split; [|split; [|split; [|split]]].
  - intros state Hc. unfold ChargerState; cbn [negb].
    rewrite (getitem_None _ _ Hc). reflexivity.
  - intros state Hc Hhash. unfold ChargerState; cbn [negb].
    destruct (state !! "chargerOpMode") as [mode|] eqn:Hm.
    + rewrite (getitem_Some _ _ _ Hm); cbn [rbind].
      destruct (Hhash mode eq_refl) as [a ->].
      unfold table_getitem, hashable; cbn [rbind].
      destruct (table_find STATUS a); cbn [rbind].
      * rewrite (getitem_None _ _ Hc). eexists; reflexivity.
      * eexists; reflexivity.
    + rewrite (getitem_None _ _ Hm). eexists; reflexivity.
  - intros state Hm. unfold ChargerState; cbn [negb].
    rewrite (getitem_None _ _ Hm). reflexivity.
  - intros state mode Hm Hmode. unfold ChargerState; cbn [negb].
    rewrite (getitem_Some _ _ _ Hm); cbn [rbind].
    destruct mode as [a| |]; [destruct (Hmode a eq_refl)|reflexivity..].
  - intros schedule. unfold ChargerSchedule, BaseDict, dict_get. split.
    + rewrite !dom_insert_L, dom_empty_L. set_solver.
    + intros k Hk.
      repeat (apply elem_of_cons in Hk as [-> | Hk];
              [repeat first [apply lookup_insert_eq | rewrite lookup_insert_ne by discriminate]|]).
      inversion Hk.
Qed.

(** A list under [chargerOpMode] fails the status lookup with [TypeError]
    before [reasonForNoCurrent] is looked at. *)
Example ChargerState_unhashable_mode :
  ChargerState {[ "chargerOpMode" := VList [] ]} false = Err TypeError.
Proof. reflexivity. Qed.

(** C10 as the spec words it fails: a payload without [reasonForNoCurrent]
    whose [chargerOpMode] is a list raises [TypeError] in decoded mode, which
    is no [KeyError]. *)
Lemma missing_fields_counterexample :
  let state : gmap string PyVal := {[ "chargerOpMode" := VList [] ]} in
  state !! "reasonForNoCurrent" = None /\
  ChargerState state false = Err TypeError /\
  forall key, ChargerState state false <> Err (KeyError key).
Proof.
  intros state. split; [reflexivity|]. split; [reflexivity|].
  intros key. discriminate.
Qed.

Lemma missing_fields_witness :
  ChargerState {[ "chargerOpMode" := VInt 3 ]} true = Err (KeyError (VStr "reasonForNoCurrent")) /\
  (exists key, ChargerState {[ "chargerOpMode" := VInt 3 ]} false = Err (KeyError key)) /\
  ChargerState {[ "reasonForNoCurrent" := VInt 0 ]} false = Err (KeyError (VStr "chargerOpMode")) /\
  ChargerState {[ "chargerOpMode" := VList []; "reasonForNoCurrent" := VInt 0 ]} false
  = Err TypeError /\
  ChargerSchedule {[ "id" := VInt 1 ]} !! "repeat" = Some VNone.
Proof.
  destruct missing_fields as (H1 & H2 & H3 & H5 & H4).
  split; [apply H1; reflexivity|].
  split.
  { apply H2; [reflexivity|].
    intros mode Hm. exists (SInt 3).
    assert (({[ "chargerOpMode" := VInt 3 ]} : gmap string PyVal) !! "chargerOpMode" = Some (VInt 3)) as E
      by reflexivity.
    rewrite E in Hm. injection Hm as <-. reflexivity. }
  split; [apply H3; reflexivity|].
  split; [apply (H5 _ (VList [])); [reflexivity | discriminate]|].
  assert ("repeat" ∈ ["id"; "chargeStartTime"; "chargeStopTime"; "repeat"]) as Hk by set_solver.
  exact (proj2 (H4 {[ "id" := VInt 1 ]}) "repeat" Hk).
Defined.

(** ** Running coroutines *)

Lemma run_await {W X} (h : Handler W) (c : Call X) (w : W) :
  run h (await c) w = mkOutcome [Called c] (fst (h _ c w)) (snd (h _ c w)).
Proof.
  unfold await; cbn [run]. destruct (h X c w) as [w' [x|e]]; reflexivity.
Qed.

(** ** Access levels *)

(** C6: a symbolic access level and its integer make the same PUT, with the
    integer code as body; an access value (hashable, as an int or a str is)
    that equals none of the six keys raises [KeyError] without any call. *)
Theorem set_access_codes (self : Charger) :
  let put code :=
    await (easee_put ("/api/chargers/" +:+ id self +:+ "/access") (Some (VInt code))) in
  (set_access self (VStr "whitelist") = put 3 /\
   set_access self (VInt 3) = put 3 /\
   set_access self (VStr "easee_account_required") = put 2 /\
   set_access self (VInt 2) = put 2 /\
   set_access self (VStr "open_for_all") = put 1 /\
   set_access self (VInt 1) = put 1) /\
  (forall W (h : Handler W) (w : W),
      trace (run h (set_access self (VStr "whitelist")) w)
      = [Called (easee_put ("/api/chargers/" +:+ id self +:+ "/access") (Some (VInt 3)))] /\
      run h (set_access self (VStr "whitelist")) w = run h (set_access self (VInt 3)) w) /\
  (forall a : Scalar,
      Forall (fun k => scalar_eq k a = false)
             [SInt 1; SInt 2; SInt 3;
              SStr "open_for_all"; SStr "easee_account_required"; SStr "whitelist"] ->
      set_access self (VScalar a) = Raise (KeyError (VScalar a)) /\
      forall W (h : Handler W) (w : W),
        run h (set_access self (VScalar a)) w = mkOutcome [] w (Err (KeyError (VScalar a)))).
Proof.
  intros put. split; [repeat split|split].
  - intros W h w. split; [|reflexivity].
    change (set_access self (VStr "whitelist")) with (put 3).
    unfold put. rewrite run_await. reflexivity.
  - intros a Ha.
    assert (set_access self (VScalar a) = Raise (KeyError (VScalar a))) as E.
    { unfold set_access, table_getitem, hashable; cbn [rbind table_find].
      repeat (apply Forall_cons in Ha as [-> Ha]). reflexivity. }
    split; [exact E|]. intros W h w. rewrite E. reflexivity.
Qed.

Lemma set_access_codes_witness :
  set_access charger_EH12345 (VStr "guests") = Raise (KeyError (VStr "guests")) /\
  run (spy (Ok (Object (mkObj 0))) (Ok VNone)) (set_access charger_EH12345 (VInt 4)) 0%nat
  = mkOutcome [] 0%nat (Err (KeyError (VInt 4))).
Proof.
  split.
  - apply (proj2 (proj2 (set_access_codes charger_EH12345)) (SStr "guests")).
    repeat constructor.
  - apply (proj2 (proj2 (set_access_codes charger_EH12345)) (SInt 4)).
    repeat constructor.
Defined.

(** ** Circuit currents *)

(** C9: without a circuit the three circuit setters leave a line in the log,
    make no call at all and return [None]; with a circuit each makes exactly
    one call, the circuit's method of the same purpose with the same three
    currents, and returns (or raises) what that call returns (or raises). *)
Theorem circuit_current_setters (self : Charger) (p1 p2 p3 : PyVal) :
  (circuit self = Value VNone ->
   forall W (h : Handler W) (w : W),
     let o1 := run h (set_dynamic_charger_circuit_current self p1 p2 p3) w in
     let o2 := run h (set_max_charger_circuit_current self p1 p2 p3) w in
     let o3 := run h (set_max_offline_charger_circuit_current self p1 p2 p3) w in
     (filter is_call (trace o1) = [] /\ returned o1 = Ok (Value VNone) /\ world o1 = w) /\
     (filter is_call (trace o2) = [] /\ returned o2 = Ok (Value VNone) /\ world o2 = w) /\
     (filter is_call (trace o3) = [] /\ returned o3 = Ok (Value VNone) /\ world o3 = w)) /\
  (circuit self <> Value VNone ->
   forall W (h : Handler W) (w : W),
     let c1 := circuit_set_dynamic_current (circuit self) p1 p2 p3 in
     let c2 := circuit_set_max_current (circuit self) p1 p2 p3 in
     let c3 := circuit_set_max_offline_current (circuit self) p1 p2 p3 in
     run h (set_dynamic_charger_circuit_current self p1 p2 p3) w
     = mkOutcome [Called c1] (fst (h _ c1 w)) (snd (h _ c1 w)) /\
     run h (set_max_charger_circuit_current self p1 p2 p3) w
     = mkOutcome [Called c2] (fst (h _ c2 w)) (snd (h _ c2 w)) /\
     run h (set_max_offline_charger_circuit_current self p1 p2 p3) w
     = mkOutcome [Called c3] (fst (h _ c3 w)) (snd (h _ c3 w))).
Proof.
  split.
  - intros Hc W h w.
    unfold set_dynamic_charger_circuit_current, set_max_charger_circuit_current,
      set_max_offline_charger_circuit_current.
    rewrite Hc. cbn. repeat split.
  - intros Hc W h w.
    assert (is_None (circuit self) = false) as E.
    { destruct (circuit self) as [[[]| |]|]; try reflexivity. congruence. }
    unfold set_dynamic_charger_circuit_current, set_max_charger_circuit_current,
      set_max_offline_charger_circuit_current.
    rewrite E; cbn [negb]. rewrite !run_await. repeat split.
Qed.

Lemma circuit_current_setters_witness :
  (let o := run (spy (Ok (Object (mkObj 0))) (Ok VNone))
                (set_max_charger_circuit_current charger_EH12345 (VInt 16) VNone VNone) 0%nat in
   filter is_call (trace o) = [] /\ returned o = Ok (Value VNone) /\ world o = 0%nat) /\
  run (spy (Ok (Object (mkObj 0))) (Ok VNone))
      (set_max_charger_circuit_current charger_on_circuit (VInt 16) VNone VNone) 0%nat
  = mkOutcome [Called (circuit_set_max_current (Object (mkObj 8)) (VInt 16) VNone VNone)]
              1%nat (Ok (Object (mkObj 1))).
Proof.
  split.
  - assert (circuit charger_EH12345 = Value VNone) as Hc by reflexivity.
    exact (proj1 (proj2 (proj1 (circuit_current_setters charger_EH12345 (VInt 16) VNone VNone) Hc
                                 nat (spy (Ok (Object (mkObj 0))) (Ok VNone)) 0%nat))).
  - assert (circuit charger_on_circuit <> Value VNone) as Hc by discriminate.
    exact (proj1 (proj2 (proj2 (circuit_current_setters charger_on_circuit (VInt 16) VNone VNone) Hc
                                 nat (spy (Ok (Object (mkObj 0))) (Ok VNone)) 0%nat))).
Defined.

(** ** The basic charge plan *)

(** C1: [get_basic_charge_plan] returns [None] exactly when the GET, or
    [json()] on its response, raises [NotFoundException]; any other exception
    of these two calls reaches the caller as it is; and when [None] is
    returned no [ChargerSchedule] has been constructed. *)
Theorem get_basic_charge_plan_not_found (self : Charger) W (h : Handler W) (w : W) :
  let o := run h (get_basic_charge_plan self) w in
  let fetched := snd (get_json h ("/api/chargers/" +:+ id self +:+ "/basic_charge_plan") w) in
  (returned o = Ok None <-> exists e, fetched = Err e /\ is_not_found e = true) /\
  (forall e, fetched = Err e -> is_not_found e = false -> returned o = Err e) /\
  (returned o = Ok None -> Noted (construct "ChargerSchedule") ∉ trace o) /\
  (forall d, fetched = Ok (VDict d) -> returned o = Ok (Some (ChargerSchedule d))).
Proof.
  cbn zeta. unfold get_basic_charge_plan, get_json.
  cbn [try_except bind await tell lift run].
  destruct (h _ (easee_get ("/api/chargers/" +:+ id self +:+ "/basic_charge_plan")) w)
    as [w1 [resp|e]]; cbn [run lift bind try_except default returned trace snd].
  - destruct (h _ (response_json resp) w1) as [w2 [plan|e]];
      cbn [run lift bind try_except default returned trace snd].
    + destruct plan as [a|l|d]; cbn; repeat split; try discriminate; try congruence.
      * intros (e & He & _). discriminate.
      * intros (e & He & _). discriminate.
      * intros (e & He & _). discriminate.
    + destruct (is_not_found e) eqn:He; cbn; repeat split; try discriminate; try congruence.
      * eauto.
      * intros _ Hin. rewrite !elem_of_cons in Hin.
        destruct Hin as [?|[?|[?|Hin]]]; try discriminate. inversion Hin.
      * intros (e' & [= <-] & He'). congruence.
  - destruct (is_not_found e) eqn:He; cbn; repeat split; try discriminate; try congruence.
    + eauto.
    + intros _ Hin. rewrite !elem_of_cons in Hin.
      destruct Hin as [?|[?|Hin]]; try discriminate. inversion Hin.
    + intros (e' & [= <-] & He'). congruence.
Qed.

Lemma get_basic_charge_plan_not_found_witness :
  returned (run (spy (Err (NotFoundException "404")) (Ok VNone))
                (get_basic_charge_plan charger_EH12345) 0%nat) = Ok None /\
  returned (run (spy (Ok (Object (mkObj 0))) (Err (OtherException "ServerError" "500")))
                (get_basic_charge_plan charger_EH12345) 0%nat)
  = Err (OtherException "ServerError" "500") /\
  (Noted (construct "ChargerSchedule")
     ∉ trace (run (spy (Err (NotFoundException "404")) (Ok VNone))
                  (get_basic_charge_plan charger_EH12345) 0%nat)) /\
  returned (run (spy (Ok (Object (mkObj 0))) (Ok (VDict {[ "id" := VInt 1 ]})))
                (get_basic_charge_plan charger_EH12345) 0%nat)
  = Ok (Some (ChargerSchedule {[ "id" := VInt 1 ]})).
Proof.
  split; [|split; [|split]].
  - apply (proj1 (get_basic_charge_plan_not_found charger_EH12345 nat
                    (spy (Err (NotFoundException "404")) (Ok VNone)) 0%nat)).
    exists (NotFoundException "404"). split; reflexivity.
  - apply (proj1 (proj2 (get_basic_charge_plan_not_found charger_EH12345 nat
                    (spy (Ok (Object (mkObj 0))) (Err (OtherException "ServerError" "500"))) 0%nat)));
      reflexivity.
  - apply (proj1 (proj2 (proj2 (get_basic_charge_plan_not_found charger_EH12345 nat
                    (spy (Err (NotFoundException "404")) (Ok VNone)) 0%nat)))).
    reflexivity.
  - apply (proj2 (proj2 (proj2 (get_basic_charge_plan_not_found charger_EH12345 nat
                    (spy (Ok (Object (mkObj 0))) (Ok (VDict {[ "id" := VInt 1 ]}))) 0%nat)))).
    reflexivity.
Defined.

(** ** Sorting *)

Lemma ltb_negb_leb (s t : string) : String.ltb s t = negb (String.leb t s).
Proof.
  unfold String.ltb, String.leb. rewrite (String.compare_antisym t s).
  destruct (String.compare s t); reflexivity.
Qed.

Lemma filter_none {A} (P : A -> Prop) `{forall x, Decision (P x)} (l : list A) :
  Forall (fun x => ~ P x) l -> filter P l = [].
Proof.
  induction 1 as [|x l Hx Hl IH]; [reflexivity|].
  rewrite filter_cons_False by exact Hx. exact IH.
Qed.

Section InsertionSortFacts.
Context {A : Type} (key : A -> string).

Lemma ltb_le_key (x y : A) : String.ltb (key x) (key y) = true -> le_key key x y /\ key x <> key y.
Proof.
  intros Hlt. rewrite ltb_negb_leb in Hlt. apply negb_true_iff in Hlt. split.
  - unfold le_key. destruct (total String.le (key x) (key y)) as [H|H]; [exact H|].
    unfold String.le in H. rewrite Hlt in H. destruct H.
  - intros E. rewrite E in Hlt.
    pose proof (reflexivity (R := String.le) (key y)) as Hr.
    unfold String.le in Hr. rewrite Hlt in Hr. destruct Hr.
Qed.

Lemma not_ltb_le_key (x y : A) : String.ltb (key x) (key y) = false -> le_key key y x.
Proof.
  intros Hlt. rewrite ltb_negb_leb in Hlt. apply negb_false_iff in Hlt.
  unfold le_key, String.le. rewrite Hlt. exact I.
Qed.

Lemma insert_by_Permutation (x : A) (l : list A) : insert_by key x l ≡ₚ x :: l.
Proof.
  induction l as [|y l IH]; cbn [insert_by]; [reflexivity|].
  destruct (String.ltb (key x) (key y)); [reflexivity|].
  rewrite IH. apply Permutation_swap.
Qed.

Lemma fold_insert_by_Permutation (l acc : list A) :
  fold_left (fun acc x => insert_by key x acc) l acc ≡ₚ acc ++ l.
Proof.
  revert acc. induction l as [|x l IH]; intros acc; cbn [fold_left].
  - rewrite app_nil_r. reflexivity.
  - rewrite IH, insert_by_Permutation.
    rewrite <- (Permutation_middle acc l x). reflexivity.
Qed.

Lemma isort_by_Permutation (l : list A) : isort_by key l ≡ₚ l.
Proof. unfold isort_by. rewrite fold_insert_by_Permutation. reflexivity. Qed.

Lemma insert_by_sorted (x : A) (l : list A) :
  StronglySorted (le_key key) l -> StronglySorted (le_key key) (insert_by key x l).
Proof.
  induction l as [|y l IH]; cbn [insert_by]; intros Hs.
  - repeat constructor.
  - apply StronglySorted_cons in Hs as [Hy Hs].
    destruct (String.ltb (key x) (key y)) eqn:Hlt.
    + apply ltb_le_key in Hlt as [Hxy _].
      apply StronglySorted_cons. split.
      * constructor; [exact Hxy|].
        eapply Forall_impl; [exact Hy|].
        intros z Hz. unfold le_key in *. etrans; eauto.
      * apply StronglySorted_cons. split; assumption.
    + apply not_ltb_le_key in Hlt.
      apply StronglySorted_cons. split; [|apply IH, Hs].
      apply Forall_forall. intros z Hz.
      rewrite insert_by_Permutation in Hz. apply elem_of_cons in Hz as [-> | Hz].
      * exact Hlt.
      * rewrite Forall_forall in Hy. apply Hy, Hz.
Qed.

Lemma fold_insert_by_sorted (l acc : list A) :
  StronglySorted (le_key key) acc ->
  StronglySorted (le_key key) (fold_left (fun acc x => insert_by key x acc) l acc).
Proof.
  revert acc. induction l as [|x l IH]; intros acc Hs; cbn [fold_left]; [exact Hs|].
  apply IH, insert_by_sorted, Hs.
Qed.

Lemma isort_by_sorted (l : list A) : StronglySorted (le_key key) (isort_by key l).
Proof. apply fold_insert_by_sorted. constructor. Qed.

(** An item goes behind the items of the same key that are already there. *)
Lemma insert_by_filter (t : string) (x : A) (l : list A) :
  StronglySorted (le_key key) l ->
  filter (fun a => key a = t) (insert_by key x l)
  = filter (fun a => key a = t) l ++ filter (fun a => key a = t) [x].
Proof.
  induction l as [|y l IH]; cbn [insert_by]; intros Hs; [reflexivity|].
  apply StronglySorted_cons in Hs as [Hy Hs].
  destruct (String.ltb (key x) (key y)) eqn:Hlt.
  - destruct (decide (key x = t)) as [Hx|Hx].
    + rewrite (filter_cons_True _ x) by exact Hx.
      rewrite (filter_none (fun a => key a = t) (y :: l)).
      * rewrite filter_singleton_True by assumption. reflexivity.
      * apply ltb_le_key in Hlt as [Hxy Hne].
        constructor; [congruence|].
        eapply Forall_impl; [exact Hy|]. intros z Hz Ez.
        apply Hne. apply (anti_symm String.le); [exact Hxy|].
        unfold le_key in Hz. rewrite Hx, <- Ez. exact Hz.
    + rewrite (filter_cons_False _ x) by exact Hx.
      rewrite (filter_singleton_False _ x) by assumption.
      rewrite app_nil_r. reflexivity.
  - rewrite !(filter_cons _ y), (IH Hs).
    destruct (decide (key y = t)); reflexivity.
Qed.

Lemma fold_insert_by_filter (t : string) (l acc : list A) :
  StronglySorted (le_key key) acc ->
  filter (fun a => key a = t) (fold_left (fun acc x => insert_by key x acc) l acc)
  = filter (fun a => key a = t) acc ++ filter (fun a => key a = t) l.
Proof.
  revert acc. induction l as [|x l IH]; intros acc Hs; cbn [fold_left].
  - rewrite app_nil_r. reflexivity.
  - rewrite IH by (apply insert_by_sorted, Hs).
    rewrite insert_by_filter by exact Hs.
    rewrite <- app_assoc. f_equal.
    rewrite <- filter_app. reflexivity.
Qed.

(** Stability: the items of any one key come out in the order they came in. *)
Lemma isort_by_stable (t : string) (l : list A) :
  filter (fun a => key a = t) (isort_by key l) = filter (fun a => key a = t) l.
Proof. unfold isort_by. rewrite fold_insert_by_filter by constructor. reflexivity. Qed.

(** The sort of the model is this insertion sort when the keys are text. *)
Lemma insort_keyed (x : A) (l : list A) :
  insort (keyed key x) (keyed key <$> l) = Ok (keyed key <$> insert_by key x l).
Proof.
  induction l as [|y l IH]; [reflexivity|].
  cbn [insort fmap list_fmap insert_by keyed fst py_lt scalar_lt rbind].
  destruct (String.ltb (key x) (key y)); [reflexivity|].
  change (insort (VStr (key x), x) (list_fmap _ _ (keyed key) l))
    with (insort (keyed key x) (keyed key <$> l)).
  rewrite IH. reflexivity.
Qed.

Lemma sort_keyed_fold (l acc : list A) :
  fold_left (fun acc x => (acc <- acc ;; insort x acc)%result) (keyed key <$> l)
            (Ok (keyed key <$> acc))
  = Ok (keyed key <$> fold_left (fun acc x => insert_by key x acc) l acc).
Proof.
  revert acc. induction l as [|x l IH]; intros acc; [reflexivity|].
  cbn [fmap list_fmap fold_left rbind].
  change (insort (keyed key x) (list_fmap _ _ (keyed key) acc))
    with (insort (keyed key x) (keyed key <$> acc)).
  rewrite insort_keyed. apply IH.
Qed.

Lemma sort_keyed_isort (l : list A) :
  sort_keyed (keyed key <$> l) = Ok (keyed key <$> isort_by key l).
Proof. apply (sort_keyed_fold l []). Qed.

(** [list.sort(key=..., reverse=True)] on items whose keys are text. *)
Lemma list_sort_reverse (kf : A -> result PyVal) (l : list A) :
  Forall (fun x => kf x = Ok (VStr (key x))) l ->
  list_sort kf true l = Ok (reverse (isort_by key (reverse l))).
Proof.
  intros Hk. unfold list_sort.
  assert (with_keys kf l = Ok (keyed key <$> l)) as ->.
  { induction Hk as [|x l Hx Hl IH]; [reflexivity|].
    cbn [with_keys]. rewrite Hx; cbn [rbind]. rewrite IH. reflexivity. }
  cbn [rbind]. rewrite <- fmap_reverse, sort_keyed_isort; cbn [rbind].
  rewrite <- fmap_reverse, <- list_fmap_compose.
  rewrite <- (list_fmap_id (reverse _)) at 2. reflexivity.
Qed.

End InsertionSortFacts.

Lemma StronglySorted_reverse {A} (R : relation A) (l : list A) :
  StronglySorted R l -> StronglySorted (flip R) (reverse l).
Proof.
  induction 1 as [|x l Hl IH Hx]; [constructor|].
  rewrite reverse_cons. apply StronglySorted_app_2.
  - intros a b Ha Hb. apply list_elem_of_singleton in Hb as ->.
    rewrite elem_of_reverse in Ha. rewrite Forall_forall in Hx. apply Hx, Ha.
  - exact IH.
  - repeat constructor.
Qed.

Lemma StronglySorted_weaken {A} (R R' : relation A) (l : list A) :
  (forall a b, a ∈ l -> b ∈ l -> R a b -> R' a b) ->
  StronglySorted R l -> StronglySorted R' l.
Proof.
  intros HR Hs. induction Hs as [|x l Hl IH Hx]; [constructor|].
  constructor.
  - apply IH. intros a b Ha Hb. apply HR; right; assumption.
  - rewrite Forall_forall in *. intros y Hy.
    apply HR; [left | right; exact Hy | apply Hx, Hy].
Qed.

(** ** Sessions between two dates *)

Lemma run_bind {W A B} (h : Handler W) (p : Prog A) (f : A -> Prog B) (w : W) :
  run h (bind p f) w
  = let o := run h p w in
    match returned o with
    | Ok a =>
        let o' := run h (f a) (world o) in
        mkOutcome (trace o ++ trace o') (world o') (returned o')
    | Err e => mkOutcome (trace o) (world o) (Err e)
    end.
Proof.
  revert w. induction p as [a|e|n k IH|X c k IH]; intros w; cbn [bind run returned world trace].
  - destruct (run h (f a) w); reflexivity.
  - reflexivity.
  - rewrite IH. cbn zeta. destruct (returned (run h k w)); reflexivity.
  - destruct (h X c w) as [w' r]. rewrite IH. cbn zeta.
    cbn [returned world trace].
    destruct (returned (run h (k r) w')); reflexivity.
Qed.

Lemma ChargerSession_connected (p : gmap string PyVal) (t : string) (f : spec_float) :
  p !! "carConnected" = Some (VStr t) ->
  py_float (dict_get p "kiloWattHours") = Ok f ->
  exists s, ChargerSession p = Ok s /\ s !! "carConnected" = Some (VStr t).
Proof.
  intros Ht Hf. unfold ChargerSession. rewrite Hf; cbn [rbind].
  eexists. split; [reflexivity|]. unfold BaseDict, dict_get.
  rewrite !lookup_insert_ne by discriminate.
  rewrite lookup_insert_eq, Ht. reflexivity.
Qed.

Lemma sessions_of_payloads (payloads : list (gmap string PyVal)) :
  Forall session_payload payloads ->
  exists sessions,
    Forall2 (fun p s => ChargerSession p = Ok s) payloads sessions /\
    Forall (fun s => exists t, s !! "carConnected" = Some (VStr t)) sessions.
Proof.
  induction 1 as [|p payloads [[t Ht] [f Hf]] _ (sessions & H2 & Hk)].
  - exists []. split; constructor.
  - destruct (ChargerSession_connected p t f Ht Hf) as (s & Hs & Hst).
    exists (s :: sessions). split; constructor; eauto.
Qed.

Lemma run_for_each_sessions {W} (h : Handler W) (w : W)
      (payloads sessions : list (gmap string PyVal)) :
  Forall2 (fun p s => ChargerSession p = Ok s) payloads sessions ->
  run h (for_each (fun session : PyVal =>
                     bind (tell (construct "ChargerSession"))
                          (fun _ => lift (session <- with_get session ;;
                                          ChargerSession session)%result))
                  (VDict <$> payloads)) w
  = mkOutcome (replicate (length payloads) (Noted (construct "ChargerSession"))) w (Ok sessions).
Proof.
  set (body := fun session : PyVal => bind _ _).
  induction 1 as [|p s payloads sessions Hs _ IH]; [reflexivity|].
  change (VDict <$> p :: payloads) with (VDict p :: (VDict <$> payloads)).
  cbn [for_each]. rewrite run_bind.
  assert (run h (body (VDict p)) w
          = mkOutcome [Noted (construct "ChargerSession")] w (Ok s)) as ->.
  { unfold body. cbn [tell bind with_get rbind]. rewrite Hs. reflexivity. }
  cbn zeta; cbn [returned world trace]. rewrite run_bind, IH.
  cbn zeta; cbn [returned world trace run]. rewrite app_nil_r. reflexivity.
Qed.

(** C5: whatever the order of the sessions in the response, the listing
    returns the records built from them, each once, newest first: no record
    is followed by one with a greater [carConnected], and records with the
    same [carConnected] keep the order of the response. *)
Theorem get_sessions_between_dates_sorted
        (self : Charger) (from_date to_date : datetime)
        W (h : Handler W) (w : W) (payloads : list (gmap string PyVal)) :
  snd (get_json h ("/api/sessions/charger/" +:+ id self +:+ "/sessions/"
                   +:+ isoformat from_date +:+ "/" +:+ isoformat to_date) w)
  = Ok (VList (VDict <$> payloads)) ->
  Forall session_payload payloads ->
  exists sessions out,
    Forall2 (fun p s => ChargerSession p = Ok s) payloads sessions /\
    returned (run h (get_sessions_between_dates self from_date to_date) w) = Ok out /\
    out ≡ₚ sessions /\
    StronglySorted (fun a b => connected_lt a b = Ok false) out /\
    (forall t, filter (fun s => connected_at s = t) out
               = filter (fun s => connected_at s = t) sessions).
Proof.
  intros Hfetch Hp.
  destruct (sessions_of_payloads payloads Hp) as (sessions & H2 & Hk).
  exists sessions, (reverse (isort_by connected_at (reverse sessions))).
  assert (forall s, s ∈ sessions -> getitem s "carConnected" = Ok (VStr (connected_at s))) as Hkey.
  { intros s Hs. rewrite Forall_forall in Hk. destruct (Hk s Hs) as [t Ht].
    unfold getitem, connected_at. rewrite Ht. reflexivity. }
  split; [exact H2|]. split; [|split; [|split]].
  - unfold get_sessions_between_dates, get_json in *.
    cbn [bind await run returned].
    destruct (h _ (easee_get _) w) as [w1 [resp|e]]; [|discriminate Hfetch].
    cbn [lift bind run returned].
    destruct (h _ (response_json resp) w1) as [w2 r2]. cbn [snd] in Hfetch. subst r2.
    cbn [lift bind py_iter].
    rewrite run_bind, (run_for_each_sessions h w2 payloads sessions H2).
    cbn zeta; cbn [returned world trace].
    rewrite (list_sort_reverse connected_at) by (apply Forall_forall, Hkey).
    reflexivity.
  - rewrite reverse_Permutation, isort_by_Permutation. apply reverse_Permutation.
  - apply (StronglySorted_weaken (flip (le_key connected_at))).
    + intros a b Ha Hb Hab.
      rewrite elem_of_reverse, isort_by_Permutation, elem_of_reverse in Ha, Hb.
      unfold connected_lt. rewrite (Hkey a Ha), (Hkey b Hb). cbn [rbind py_lt scalar_lt].
      rewrite ltb_negb_leb. unfold flip, le_key, String.le in Hab.
      destruct (String.leb (connected_at b) (connected_at a)); [reflexivity|destruct Hab].
    + apply StronglySorted_reverse, isort_by_sorted.
  - intros t. rewrite filter_reverse, isort_by_stable, filter_reverse.
    apply reverse_involutive.
Qed.

(** Sessions without a timestamp do not sort: [None < None] is a [TypeError]. *)
Example list_sort_None_keys :
  list_sort (fun x : gmap string PyVal => getitem x "carConnected") true
            [ {[ "carConnected" := VNone ]}; {[ "carConnected" := VNone ]} ]
  = Err TypeError.
Proof. reflexivity. Qed.

Lemma get_sessions_between_dates_sorted_witness :
  exists sessions out,
    Forall2 (fun p s => ChargerSession p = Ok s)
            [session_A; session_B; session_C; session_D] sessions /\
    returned (run (spy (Ok (Object (mkObj 0))) (Ok four_sessions))
                  (get_sessions_between_dates charger_EH12345
                     (a_datetime "2021-03-01T00:00:00") (a_datetime "2021-03-04T00:00:00"))
                  0%nat) = Ok out /\
    out ≡ₚ sessions /\
    StronglySorted (fun a b => connected_lt a b = Ok false) out /\
    (forall t, filter (fun s => connected_at s = t) out
               = filter (fun s => connected_at s = t) sessions).
Proof.
  apply (get_sessions_between_dates_sorted charger_EH12345
           (a_datetime "2021-03-01T00:00:00") (a_datetime "2021-03-04T00:00:00")
           nat (spy (Ok (Object (mkObj 0))) (Ok four_sessions)) 0%nat
           [session_A; session_B; session_C; session_D]).
  - reflexivity.
  - repeat constructor; eexists; reflexivity.
Defined.

(** The run of that listing: D, then A before C (as in the response), then B. *)
Example get_sessions_between_dates_run :
  exists out,
    returned (run (spy (Ok (Object (mkObj 0))) (Ok four_sessions))
                  (get_sessions_between_dates charger_EH12345
                     (a_datetime "2021-03-01T00:00:00") (a_datetime "2021-03-04T00:00:00"))
                  0%nat) = Ok out /\
    (fun s => (s !! "carConnected", s !! "carDisconnected", s !! "kiloWattHours", size s)) <$> out
    = [ (Some (VStr "2021-03-03T08:00:00Z"), Some VNone,
         Some (VFloat (S754_zero false)), 3%nat);
        (Some (VStr "2021-03-02T08:00:00Z"), Some (VStr "2021-03-02T09:00:00Z"),
         Some (VFloat (S754_finite false 5629499534213120 (-49))), 3%nat);
        (Some (VStr "2021-03-02T08:00:00Z"), Some (VStr "2021-03-02T10:30:00Z"),
         Some (VFloat (S754_finite false 5910974510923776 (-49))), 3%nat);
        (Some (VStr "2021-03-01T08:00:00Z"), Some VNone,
         Some (VFloat (S754_finite false 5910974510923776 (-49))), 3%nat) ].
Proof. eexists. split; [reflexivity|]. vm_compute. reflexivity. Qed.

(** ** The energy of a session *)

Lemma ChargerSession_energy (session : gmap string PyVal) (f : spec_float) :
  py_float (dict_get session "kiloWattHours") = Ok f ->
  exists d, ChargerSession session = Ok d /\ d !! "kiloWattHours" = Some (VFloat f).
Proof.
  intros Hf. unfold ChargerSession. rewrite Hf; cbn [rbind].
  eexists. split; [reflexivity|]. apply lookup_insert_eq.
Qed.

(** The floats 10.0 and 10.5, by their text. *)
Example float_repr_10 : float_repr (S754_finite false 5629499534213120 (-49)) = "10.0".
Proof. vm_compute. reflexivity. Qed.

Example float_repr_10_5 : float_repr (S754_finite false 5910974510923776 (-49)) = "10.5".
Proof. vm_compute. reflexivity. Qed.

(** C8: the [kiloWattHours] of a constructed session is a float; the integer
    [10] becomes the float 10.0 and the string ["10.5"] the float 10.5; and
    when the payload has no [kiloWattHours] (or holds [None] there), the
    construction raises [TypeError] instead of settling on a default. *)
Theorem session_energy_is_float :
  (forall session d : gmap string PyVal,
      ChargerSession session = Ok d ->
      exists f, d !! "kiloWattHours" = Some (VFloat f)) /\
  (forall session : gmap string PyVal,
      session !! "kiloWattHours" = Some (VInt 10) ->
      exists d, ChargerSession session = Ok d /\
                d !! "kiloWattHours" = Some (VFloat (S754_finite false 5629499534213120 (-49)))) /\
  (forall session : gmap string PyVal,
      session !! "kiloWattHours" = Some (VStr "10.5") ->
      exists d, ChargerSession session = Ok d /\
                d !! "kiloWattHours" = Some (VFloat (S754_finite false 5910974510923776 (-49)))) /\
  (forall session : gmap string PyVal,
      session !! "kiloWattHours" = None \/ session !! "kiloWattHours" = Some VNone ->
      ChargerSession session = Err TypeError).
Proof.
  split; [|split; [|split]].
  - intros session d Hd. unfold ChargerSession in Hd.
    destruct (py_float (dict_get session "kiloWattHours")) as [f|] eqn:Hf; [|discriminate].
    cbn [rbind] in Hd. injection Hd as <-.
    exists f. apply lookup_insert_eq.
  - intros session Hk. apply ChargerSession_energy.
    unfold dict_get. rewrite Hk. vm_compute. reflexivity.
  - intros session Hk. apply ChargerSession_energy.
    unfold dict_get. rewrite Hk. vm_compute. reflexivity.
  - intros session Hk. unfold ChargerSession, dict_get.
    destruct Hk as [-> | ->]; reflexivity.
Qed.

Lemma session_energy_is_float_witness :
  (exists f, (<["kiloWattHours" := VFloat (S754_zero false)]>
                (<["carDisconnected" := VNone]>
                   (<["carConnected" := VStr "2021-03-03T08:00:00Z"]> ∅)) : gmap string PyVal)
             !! "kiloWattHours" = Some (VFloat f)) /\
  (exists d, ChargerSession session_A = Ok d /\
             d !! "kiloWattHours" = Some (VFloat (S754_finite false 5629499534213120 (-49)))) /\
  (exists d, ChargerSession session_C = Ok d /\
             d !! "kiloWattHours" = Some (VFloat (S754_finite false 5910974510923776 (-49)))) /\
  ChargerSession {[ "carConnected" := VStr "2021-03-03T08:00:00Z" ]} = Err TypeError.
Proof.
  destruct session_energy_is_float as (H1 & H2 & H3 & H4).
  split; [|split; [|split]].
  - apply (H1 session_D). reflexivity.
  - apply H2. reflexivity.
  - apply H3. reflexivity.
  - apply H4. left. reflexivity.
Defined.

(** ** End to end *)

(** [get_state()] on the charger EH12345, the GET stubbed to answer
    [{"chargerOpMode": 3, "reasonForNoCurrent": 0}]. *)
Example get_state_end_to_end :
  exists d,
    returned (run (spy (Ok (Object (mkObj 0)))
                       (Ok (VDict {[ "chargerOpMode" := VInt 3; "reasonForNoCurrent" := VInt 0 ]})))
                  (get_state charger_EH12345 false) 0%nat) = Ok d /\
    d !! "chargerOpMode" = Some (VStr "CHARGING") /\
    d !! "reasonForNoCurrent" = Some (VStr "(0) No reason, charging or ready to charge").
Proof. eexists. split; [reflexivity|]. split; reflexivity. Qed.

(** * Further properties of the records *)

(** X1: in decoded mode the two decoded fields hold text and every other
    field of the payload keeps its value, for [ChargerState] and for
    [ChargerConfig]. *)
Theorem decoded_mode_frame :
  (forall state d : gmap string PyVal,
      ChargerState state false = Ok d ->
      (forall k, k <> "chargerOpMode" -> k <> "reasonForNoCurrent" -> d !! k = state !! k) /\
      (exists s, d !! "chargerOpMode" = Some (VStr s)) /\
      (exists s, d !! "reasonForNoCurrent" = Some (VStr s))) /\
  (forall config d : gmap string PyVal,
      ChargerConfig config false = Ok d ->
      (forall k, k <> "localNodeType" -> k <> "phaseMode" -> d !! k = config !! k) /\
      (exists s, d !! "localNodeType" = Some (VStr s)) /\
      (exists s, d !! "phaseMode" = Some (VStr s))).
Proof.
  split.
  - intros state d Hd.
    destruct (ChargerState_decoded_inv _ _ Hd) as (mode & code & status & reason & _ & _ & _ & _ & ->).
    split; [|split].
    + intros k H1 H2. rewrite !lookup_insert_ne by congruence. reflexivity.
    + exists status. rewrite lookup_insert_ne by discriminate. apply lookup_insert_eq.
    + exists reason. apply lookup_insert_eq.
  - intros config d Hd.
    destruct (ChargerConfig_decoded_inv _ _ Hd) as (node & phase & nlbl & plbl & _ & _ & _ & _ & ->).
    split; [|split].
    + intros k H1 H2. rewrite !lookup_insert_ne by congruence. reflexivity.
    + exists nlbl. rewrite lookup_insert_ne by discriminate. apply lookup_insert_eq.
    + exists plbl. apply lookup_insert_eq.
Qed.

Lemma decoded_mode_frame_witness :
  let state : gmap string PyVal :=
    {[ "chargerOpMode" := VInt 3; "reasonForNoCurrent" := VInt 0; "cableLocked" := VBool true ]} in
  let d : gmap string PyVal :=
    {[ "chargerOpMode" := VStr "CHARGING";
       "reasonForNoCurrent" := VStr "(0) No reason, charging or ready to charge";
       "cableLocked" := VBool true ]} in
  let config : gmap string PyVal :=
    {[ "localNodeType" := VInt 1; "phaseMode" := VInt 2; "maxChargerCurrent" := VInt 32 ]} in
  let c : gmap string PyVal :=
    {[ "localNodeType" := VStr "Master"; "phaseMode" := VStr "Auto"; "maxChargerCurrent" := VInt 32 ]} in
  d !! "cableLocked" = state !! "cableLocked" /\
  c !! "maxChargerCurrent" = config !! "maxChargerCurrent".
Proof.
  intros state d config c.
  assert (ChargerState state false = Ok d) as Hd by reflexivity.
  assert (ChargerConfig config false = Ok c) as Hc by reflexivity.
  split.
  - apply (proj1 (proj1 decoded_mode_frame state d Hd)); discriminate.
  - apply (proj1 (proj2 decoded_mode_frame config c Hc)); discriminate.
Defined.

Lemma table_getitem_Ok_inv {V} (tbl : list (Scalar * V)) (k : PyVal) (v : V) :
  table_getitem tbl k = Ok v -> exists a, k = VScalar a /\ table_find tbl a = Some v.
Proof.
  unfold table_getitem, hashable.
  destruct k as [a| |]; cbn [rbind]; try discriminate.
  destruct (table_find tbl a) as [v'|] eqn:E; [|discriminate].
  intros [= <-]. eauto.
Qed.

Lemma reason_text_Ok_inv (code : PyVal) (text : string) :
  reason_text code = Ok text -> exists a, code = VScalar a.
Proof. destruct code as [a| |]; [eauto|discriminate..]. Qed.

(** X2: exactly when the constructors succeed.  A raw [ChargerState] needs
    the [reasonForNoCurrent] key and nothing else; a decoded one needs a
    [chargerOpMode] that equals a code of the status table and a hashable
    [reasonForNoCurrent]; a decoded [ChargerConfig] needs [localNodeType]
    and [phaseMode] to equal codes of their tables. *)
Theorem constructors_succeed_iff :
  (forall state : gmap string PyVal,
      (exists d, ChargerState state true = Ok d) <-> is_Some (state !! "reasonForNoCurrent")) /\
  (forall state : gmap string PyVal,
      (exists d, ChargerState state false = Ok d) <->
      (exists a lbl, state !! "chargerOpMode" = Some (VScalar a) /\ table_find STATUS a = Some lbl) /\
      (exists c, state !! "reasonForNoCurrent" = Some (VScalar c))) /\
  (forall config : gmap string PyVal,
      (exists d, ChargerConfig config false = Ok d) <->
      (exists a lbl, config !! "localNodeType" = Some (VScalar a) /\ table_find NODE_TYPE a = Some lbl) /\
      (exists a lbl, config !! "phaseMode" = Some (VScalar a) /\ table_find PHASE_MODE a = Some lbl)).
Proof.
  split; [|split].
  - intros state. split.
    + intros [d Hd]. destruct (ChargerState_raw_inv _ _ Hd) as (code & Hc & _). eauto.
    + intros [code Hc]. rewrite (ChargerState_raw _ _ Hc). eauto.
  - intros state. split.
    + intros [d Hd].
      destruct (ChargerState_decoded_inv _ _ Hd) as (mode & code & status & reason & Hm & Hs & Hc & Hr & _).
      apply table_getitem_Ok_inv in Hs as (a & -> & Ha).
      apply reason_text_Ok_inv in Hr as (c & ->). eauto 10.
    + intros [(a & lbl & Hm & Ha) (c & Hc)].
      eexists. eapply ChargerState_decoded; eauto using reason_text_scalar.
      unfold table_getitem, hashable; cbn [rbind]. rewrite Ha. reflexivity.
  - intros config. split.
    + intros [d Hd].
      destruct (ChargerConfig_decoded_inv _ _ Hd) as (node & phase & nlbl & plbl & Hn & Hnl & Hp & Hpl & _).
      apply table_getitem_Ok_inv in Hnl as (a & -> & Ha).
      apply table_getitem_Ok_inv in Hpl as (b & -> & Hb). eauto 10.
    + intros [(a & nlbl & Hn & Ha) (b & plbl & Hp & Hb)].
      unfold ChargerConfig; cbn [negb].
      rewrite (getitem_Some _ _ _ Hn), (getitem_Some _ _ _ Hp); cbn [rbind].
      unfold table_getitem, hashable; cbn [rbind]. rewrite Ha; cbn [rbind]. rewrite Hb.
      eauto.
Qed.

Lemma constructors_succeed_iff_witness :
  (exists d, ChargerState {[ "reasonForNoCurrent" := VList [] ]} true = Ok d) /\
  (exists d, ChargerState {[ "chargerOpMode" := VBool true; "reasonForNoCurrent" := VStr "?" ]} false
             = Ok d) /\
  (exists d, ChargerConfig {[ "localNodeType" := VInt 2; "phaseMode" := VInt 3 ]} false = Ok d) /\
  is_Some (({[ "reasonForNoCurrent" := VInt 1; "chargerOpMode" := VInt 8 ]} : gmap string PyVal)
             !! "reasonForNoCurrent").
Proof.
  destruct constructors_succeed_iff as (H1 & H2 & H3).
  split; [|split; [|split]].
  - apply H1. exists (VList []). reflexivity.
  - apply H2. split.
    + exists (SBool true), "DISCONNECTED". split; reflexivity.
    + exists (SStr "?"). reflexivity.
  - apply H3. split.
    + exists (SInt 2), "Extender". split; reflexivity.
    + exists (SInt 3), "Locked to three phase". split; reflexivity.
  - apply H1. exists ({[ "reasonForNoCurrent" := VInt 1; "chargerOpMode" := VInt 8 ]}).
    reflexivity.
Defined.

Lemma table_find_str {V} (tbl : list (Scalar * V)) (s : string) :
  Forall (fun kv => exists z, fst kv = SInt z) tbl -> table_find tbl (SStr s) = None.
Proof.
  induction 1 as [|[k v] tbl [z Hz] _ IH]; [reflexivity|].
  cbn in Hz. subst k. cbn [table_find]. exact IH.
Qed.

Lemma STATUS_int_keys : Forall (fun kv : Scalar * string => exists z, fst kv = SInt z) STATUS.
Proof. repeat constructor; eexists; reflexivity. Qed.

Lemma NODE_TYPE_int_keys : Forall (fun kv : Scalar * string => exists z, fst kv = SInt z) NODE_TYPE.
Proof. repeat constructor; eexists; reflexivity. Qed.

(** X3: feeding a record back to its constructor.  A raw [ChargerState] is
    a fixed point of the raw constructor, and so is a decoded one (its
    reason is text, never [None]); but a decoded record cannot be decoded
    again: its [chargerOpMode] (or [localNodeType]) is now a label, which is
    no key of the table, and the constructor raises [KeyError] on it. *)
Theorem constructors_applied_twice :
  (forall (state d : gmap string PyVal) (raw : bool),
      ChargerState state raw = Ok d -> ChargerState d true = Ok d) /\
  (forall state d : gmap string PyVal,
      ChargerState state false = Ok d ->
      exists label, d !! "chargerOpMode" = Some (VStr label) /\
                    ChargerState d false = Err (KeyError (VStr label))) /\
  (forall config d : gmap string PyVal,
      ChargerConfig config false = Ok d ->
      exists label, d !! "localNodeType" = Some (VStr label) /\
                    ChargerConfig d false = Err (KeyError (VStr label))).
Proof.
  split; [|split].
  - intros state d [] Hd.
    + destruct (ChargerState_raw_inv _ _ Hd) as (code & Hc & ->).
      erewrite ChargerState_raw by apply lookup_insert_eq.
      rewrite insert_insert_eq. destruct code as [[]| |]; reflexivity.
    + destruct (ChargerState_decoded_inv _ _ Hd) as (mode & code & status & reason & _ & _ & _ & _ & ->).
      erewrite ChargerState_raw by apply lookup_insert_eq.
      rewrite insert_insert_eq. reflexivity.
  - intros state d Hd.
    destruct (ChargerState_decoded_inv _ _ Hd) as (mode & code & status & reason & _ & _ & _ & _ & ->).
    assert ((<["reasonForNoCurrent" := VStr reason]> (<["chargerOpMode" := VStr status]> state))
              !! "chargerOpMode" = Some (VStr status)) as Hm.
    { rewrite lookup_insert_ne by discriminate. apply lookup_insert_eq. }
    exists status. split; [exact Hm|].
    unfold ChargerState; cbn [negb]. rewrite (getitem_Some _ _ _ Hm); cbn [rbind].
    rewrite (table_getitem_missing STATUS (SStr status)) by apply table_find_str, STATUS_int_keys.
    reflexivity.
  - intros config d Hd.
    destruct (ChargerConfig_decoded_inv _ _ Hd) as (node & phase & nlbl & plbl & _ & _ & _ & _ & ->).
    assert ((<["phaseMode" := VStr plbl]> (<["localNodeType" := VStr nlbl]> config))
              !! "localNodeType" = Some (VStr nlbl)) as Hn.
    { rewrite lookup_insert_ne by discriminate. apply lookup_insert_eq. }
    exists nlbl. split; [exact Hn|].
    unfold ChargerConfig; cbn [negb]. rewrite (getitem_Some _ _ _ Hn); cbn [rbind].
    rewrite (table_getitem_missing NODE_TYPE (SStr nlbl)) by apply table_find_str, NODE_TYPE_int_keys.
    reflexivity.
Qed.

Lemma constructors_applied_twice_witness :
  let state : gmap string PyVal := {[ "chargerOpMode" := VInt 3; "reasonForNoCurrent" := VNone ]} in
  let raw : gmap string PyVal :=
    {[ "chargerOpMode" := VInt 3; "reasonForNoCurrent" := VStr "none" ]} in
  let decoded : gmap string PyVal :=
    {[ "chargerOpMode" := VStr "CHARGING"; "reasonForNoCurrent" := VStr "(None) No reason" ]} in
  let config : gmap string PyVal := {[ "localNodeType" := VInt 1; "phaseMode" := VInt 2 ]} in
  let c : gmap string PyVal := {[ "localNodeType" := VStr "Master"; "phaseMode" := VStr "Auto" ]} in
  ChargerState raw true = Ok raw /\
  (exists label, decoded !! "chargerOpMode" = Some (VStr label) /\
                 ChargerState decoded false = Err (KeyError (VStr label))) /\
  (exists label, c !! "localNodeType" = Some (VStr label) /\
                 ChargerConfig c false = Err (KeyError (VStr label))).
Proof.
  intros state raw decoded config c.
  destruct constructors_applied_twice as (H1 & H2 & H3).
  assert (ChargerState state true = Ok raw) as Hr by reflexivity.
  assert (ChargerState state false = Ok decoded) as Hd by reflexivity.
  assert (ChargerConfig config false = Ok c) as Hc by reflexivity.
  split; [exact (H1 state raw true Hr)|].
  split; [exact (H2 state decoded Hd) | exact (H3 config c Hc)].
Defined.

Lemma lookup_session_fields (a b : PyVal) (f : spec_float) :
  let d : gmap string PyVal :=
    <["kiloWattHours" := VFloat f]> (<["carDisconnected" := a]> (<["carConnected" := b]> ∅)) in
  d !! "kiloWattHours" = Some (VFloat f) /\
  d !! "carDisconnected" = Some a /\
  d !! "carConnected" = Some b.
Proof.
  cbn zeta. split; [apply lookup_insert_eq|]. split.
  - rewrite lookup_insert_ne by discriminate. apply lookup_insert_eq.
  - rewrite !lookup_insert_ne by discriminate. apply lookup_insert_eq.
Qed.

Lemma ChargerSession_Ok_inv (session d : gmap string PyVal) :
  ChargerSession session = Ok d ->
  exists f, py_float (dict_get session "kiloWattHours") = Ok f /\
            d = <["kiloWattHours" := VFloat f]>
                  (<["carDisconnected" := dict_get session "carDisconnected"]>
                     (<["carConnected" := dict_get session "carConnected"]> ∅)).
Proof.
  unfold ChargerSession. intros H.
  destruct (py_float (dict_get session "kiloWattHours")) as [f|] eqn:Hf; [|discriminate].
  cbn [rbind] in H. injection H as <-. eauto.
Qed.

Lemma ChargerSchedule_lookup (s : gmap string PyVal) :
  ChargerSchedule s !! "id" = Some (dict_get s "id") /\
  ChargerSchedule s !! "chargeStartTime" = Some (dict_get s "chargeStartTime") /\
  ChargerSchedule s !! "chargeStopTime" = Some (dict_get s "chargeStopTime") /\
  ChargerSchedule s !! "repeat" = Some (dict_get s "repeat").
Proof.
  unfold ChargerSchedule, BaseDict.
  repeat split;
    repeat first [apply lookup_insert_eq | rewrite lookup_insert_ne by discriminate].
Qed.

(** X4: [ChargerSchedule] and [ChargerSession] are projections.  The
    schedule depends on nothing but what [get] finds under its four fields
    and is a fixed point of its constructor; a session has exactly the keys
    [carConnected], [carDisconnected] and [kiloWattHours], the two
    timestamps as [get] finds them in the payload ([None] when absent), and
    is a fixed point too: building a session from a session gives it back. *)
Theorem schedule_and_session_project :
  (forall s1 s2 : gmap string PyVal,
      Forall (fun k => dict_get s1 k = dict_get s2 k)
             ["id"; "chargeStartTime"; "chargeStopTime"; "repeat"] ->
      ChargerSchedule s1 = ChargerSchedule s2) /\
  (forall s : gmap string PyVal, ChargerSchedule (ChargerSchedule s) = ChargerSchedule s) /\
  (forall session d : gmap string PyVal,
      ChargerSession session = Ok d ->
      dom d = ({["carConnected"; "carDisconnected"; "kiloWattHours"]} : gset string) /\
      d !! "carConnected" = Some (dict_get session "carConnected") /\
      d !! "carDisconnected" = Some (dict_get session "carDisconnected") /\
      ChargerSession d = Ok d).
Proof.
  split; [|split].
  - intros s1 s2 H. unfold ChargerSchedule.
    repeat (apply Forall_cons in H as [-> H]). reflexivity.
  - intros s.
    destruct (ChargerSchedule_lookup s) as (Hi & Hs & He & Hr).
    unfold ChargerSchedule at 1. unfold dict_get at 1 2 3 4.
    rewrite Hi, Hs, He, Hr. reflexivity.
  - intros session d Hd.
    destruct (ChargerSession_Ok_inv _ _ Hd) as (f & _ & ->).
    generalize (dict_get session "carDisconnected") as a.
    generalize (dict_get session "carConnected") as b. intros b a.
    destruct (lookup_session_fields a b f) as (Hk & Hdis & Hcon).
    cbn zeta in *. split; [|split; [|split]].
    + rewrite !dom_insert_L, dom_empty_L. set_solver.
    + exact Hcon.
    + exact Hdis.
    + unfold ChargerSession, dict_get. rewrite Hk, Hdis, Hcon. reflexivity.
Qed.

Lemma schedule_and_session_project_witness :
  ChargerSchedule {[ "id" := VInt 1; "repeat" := VBool true; "owner" := VStr "me" ]}
  = ChargerSchedule {[ "id" := VInt 1; "repeat" := VBool true; "chargeStopTime" := VNone ]} /\
  (let d : gmap string PyVal :=
     {[ "carConnected" := VStr "2021-03-02T08:00:00Z";
        "carDisconnected" := VStr "2021-03-02T10:30:00Z";
        "kiloWattHours" := VFloat (S754_finite false 5910974510923776 (-49)) ]} in
   d !! "carConnected" = Some (dict_get session_C "carConnected") /\ ChargerSession d = Ok d).
Proof.
  destruct schedule_and_session_project as (H1 & _ & H3).
  split.
  - apply H1. repeat constructor.
  - intros d. assert (ChargerSession session_C = Ok d) as Hd by reflexivity.
    destruct (H3 session_C d Hd) as (_ & Hc & _ & Hi). split; assumption.
Defined.

(** * Further properties of the facade *)

(** A GET, an accessor of its response, and what is made of the document. *)
Lemma run_get_then {W A} (h : Handler W) (path : string)
      (accessor : PyAny -> Call PyVal) (k : PyVal -> Prog A) (w : W) :
  run h (bind (await (easee_get path)) (fun r => bind (await (accessor r)) k)) w
  = match h _ (easee_get path) w with
    | (w1, Err e) => mkOutcome [Called (easee_get path)] w1 (Err e)
    | (w1, Ok r) =>
        match h _ (accessor r) w1 with
        | (w2, Err e) => mkOutcome [Called (easee_get path); Called (accessor r)] w2 (Err e)
        | (w2, Ok doc) =>
            let o := run h (k doc) w2 in
            mkOutcome (Called (easee_get path) :: Called (accessor r) :: trace o)
                      (world o) (returned o)
        end
    end.
Proof.
  cbn [bind await run].
  destruct (h _ (easee_get path) w) as [w1 [r|e]]; cbn [lift bind run]; [|reflexivity].
  destruct (h _ (accessor r) w1) as [w2 [doc|e]]; cbn [lift bind run]; reflexivity.
Qed.

Lemma run_fetch_construct {W} (h : Handler W) (path cls : string)
      (make : gmap string PyVal -> result (gmap string PyVal)) (w : W) :
  let o := run h (bind (await (easee_get path))
                       (fun r => bind (await (response_json r))
                                      (fun doc => bind (tell (construct cls))
                                                       (fun _ => lift (d <- as_mapping doc ;; make d)%result))))
               w in
  match snd (get_json h path w) with
  | Err e => returned o = Err e /\ Noted (construct cls) ∉ trace o
  | Ok doc => returned o = (d <- as_mapping doc ;; make d)%result
  end.
Proof.
  cbn zeta. rewrite run_get_then. unfold get_json.
  destruct (h _ (easee_get path) w) as [w1 [r|e]]; cbn [snd returned trace].
  - destruct (h _ (response_json r) w1) as [w2 [doc|e]]; cbn [snd returned trace].
    + cbn [tell bind run returned].
      destruct (d <- as_mapping doc ;; make d)%result; reflexivity.
    + split; [reflexivity|]. intros Hin. rewrite !elem_of_cons in Hin.
      destruct Hin as [?|[?|Hin]]; try discriminate. inversion Hin.
  - split; [reflexivity|]. intros Hin. rewrite !elem_of_cons in Hin.
    destruct Hin as [?|Hin]; try discriminate. inversion Hin.
Qed.

Lemma as_mapping_not_dict {A} (doc : PyVal) (make : gmap string PyVal -> result A) :
  (forall d, doc <> VDict d) -> (d <- as_mapping doc ;; make d)%result = Err TypeError.
Proof.
  intros Hn. destruct doc as [a|l|d]; try reflexivity. destruct (Hn d). reflexivity.
Qed.

(** X5: [get_state] and [get_config] catch nothing.  Whatever the GET or
    [json()] raises, a [NotFoundException] included, reaches the caller as
    it is, and no record is constructed; a document that is a dict gives
    what the constructor gives for it (its exception included), and a
    document that is no dict raises [TypeError]. *)
Theorem get_state_and_config_outcome (self : Charger) (raw : bool) W (h : Handler W) (w : W) :
  let state := run h (get_state self raw) w in
  let config := run h (get_config self raw) w in
  let state_doc := snd (get_json h ("/api/chargers/" +:+ id self +:+ "/state") w) in
  let config_doc := snd (get_json h ("/api/chargers/" +:+ id self +:+ "/config") w) in
  (forall e, state_doc = Err e ->
             returned state = Err e /\ Noted (construct "ChargerState") ∉ trace state) /\
  (forall d, state_doc = Ok (VDict d) -> returned state = ChargerState d raw) /\
  (forall doc, state_doc = Ok doc -> (forall d, doc <> VDict d) -> returned state = Err TypeError) /\
  (forall e, config_doc = Err e ->
             returned config = Err e /\ Noted (construct "ChargerConfig") ∉ trace config) /\
  (forall d, config_doc = Ok (VDict d) -> returned config = ChargerConfig d raw) /\
  (forall doc, config_doc = Ok doc -> (forall d, doc <> VDict d) -> returned config = Err TypeError).
Proof.
  cbn zeta.
  pose proof (run_fetch_construct h ("/api/chargers/" +:+ id self +:+ "/state") "ChargerState"
                (fun d => ChargerState d raw) w) as Hs.
  pose proof (run_fetch_construct h ("/api/chargers/" +:+ id self +:+ "/config") "ChargerConfig"
                (fun d => ChargerConfig d raw) w) as Hc.
  cbn zeta in Hs, Hc.
  change (run h (bind _ _) w) with (run h (get_state self raw) w) in Hs.
  change (run h (bind _ _) w) with (run h (get_config self raw) w) in Hc.
  split; [|split; [|split; [|split; [|split]]]].
  - intros e He. rewrite He in Hs. exact Hs.
  - intros d Hd. rewrite Hd in Hs. exact Hs.
  - intros doc Hd Hn. rewrite Hd in Hs. rewrite Hs. apply as_mapping_not_dict, Hn.
  - intros e He. rewrite He in Hc. exact Hc.
  - intros d Hd. rewrite Hd in Hc. exact Hc.
  - intros doc Hd Hn. rewrite Hd in Hc. rewrite Hc. apply as_mapping_not_dict, Hn.
Qed.

Lemma get_state_and_config_outcome_witness :
  returned (run (spy (Err (NotFoundException "404")) (Ok VNone))
                (get_state charger_EH12345 false) 0%nat) = Err (NotFoundException "404") /\
  returned (run (spy (Ok (Object (mkObj 0))) (Ok (VDict {[ "reasonForNoCurrent" := VNone ]})))
                (get_state charger_EH12345 true) 0%nat)
  = ChargerState {[ "reasonForNoCurrent" := VNone ]} true /\
  returned (run (spy (Ok (Object (mkObj 0))) (Ok (VList [])))
                (get_state charger_EH12345 true) 0%nat) = Err TypeError /\
  returned (run (spy (Ok (Object (mkObj 0))) (Err (NotFoundException "gone")))
                (get_config charger_EH12345 false) 0%nat) = Err (NotFoundException "gone") /\
  returned (run (spy (Ok (Object (mkObj 0))) (Ok (VDict ∅)))
                (get_config charger_EH12345 true) 0%nat) = ChargerConfig ∅ true /\
  returned (run (spy (Ok (Object (mkObj 0))) (Ok VNone))
                (get_config charger_EH12345 false) 0%nat) = Err TypeError.
Proof.
  split; [|split; [|split; [|split; [|split]]]].
  - apply (proj1 (get_state_and_config_outcome charger_EH12345 false nat
                    (spy (Err (NotFoundException "404")) (Ok VNone)) 0%nat)). reflexivity.
  - apply (proj1 (proj2 (get_state_and_config_outcome charger_EH12345 true nat
                    (spy (Ok (Object (mkObj 0))) (Ok (VDict {[ "reasonForNoCurrent" := VNone ]})))
                    0%nat))). reflexivity.
  - apply (proj1 (proj2 (proj2 (get_state_and_config_outcome charger_EH12345 true nat
                    (spy (Ok (Object (mkObj 0))) (Ok (VList []))) 0%nat))) (VList [])).
    + reflexivity.
    + discriminate.
  - apply (proj1 (proj2 (proj2 (proj2 (get_state_and_config_outcome charger_EH12345 false nat
                    (spy (Ok (Object (mkObj 0))) (Err (NotFoundException "gone"))) 0%nat))))).
    reflexivity.
  - apply (proj1 (proj2 (proj2 (proj2 (proj2 (get_state_and_config_outcome charger_EH12345 true nat
                    (spy (Ok (Object (mkObj 0))) (Ok (VDict ∅))) 0%nat)))))). reflexivity.
  - apply (proj2 (proj2 (proj2 (proj2 (proj2 (get_state_and_config_outcome charger_EH12345 false nat
                    (spy (Ok (Object (mkObj 0))) (Ok VNone)) 0%nat))))) VNone).
    + reflexivity.
    + discriminate.
Defined.

(** Keeping the calls of a trace that is written out. *)
Ltac count_calls :=
  repeat (progress cbn [run lift bind try_except default from_option Datatypes.id
                         with_get is_not_found tell trace]);
  rewrite ?filter_cons, ?filter_nil; cbn [is_call Is_true];
  rewrite ?decide_True by exact I; rewrite ?decide_False by (intros []).

(** X6: [get_basic_charge_plan] never lets a [NotFoundException] out: of
    the GET and of [json()] it is turned into [None], and nothing else in
    the method raises one.  When the GET fails, [json()] is not called; the
    method makes two calls at most; and a plan that is no dict raises
    [AttributeError] (it is not taken for a missing plan). *)
Theorem get_basic_charge_plan_calls (self : Charger) W (h : Handler W) (w : W) :
  let path := "/api/chargers/" +:+ id self +:+ "/basic_charge_plan" in
  let o := run h (get_basic_charge_plan self) w in
  (forall detail, returned o <> Err (NotFoundException detail)) /\
  (forall e, snd (h _ (easee_get path) w) = Err e ->
             filter is_call (trace o) = [Called (easee_get path)]) /\
  (length (filter is_call (trace o)) <= 2)%nat /\
  (forall doc, snd (get_json h path w) = Ok doc -> (forall d, doc <> VDict d) ->
               returned o = Err AttributeError).
Proof.
  cbn zeta. unfold get_basic_charge_plan, get_json.
  cbn [try_except bind await tell lift run].
  destruct (h _ (easee_get ("/api/chargers/" +:+ id self +:+ "/basic_charge_plan")) w)
    as [w1 [resp|e]]; cbn [run lift bind try_except default returned trace snd].
  - destruct (h _ (response_json resp) w1) as [w2 [plan|e]];
      cbn [run lift bind try_except default returned trace snd].
    + split; [|split; [|split]].
      * intros detail. destruct plan; discriminate.
      * intros e [=].
      * destruct plan; count_calls; cbn [length]; lia.
      * intros doc [= <-] Hn. destruct plan as [a|l|d]; try reflexivity.
        destruct (Hn d). reflexivity.
    + destruct (is_not_found e) eqn:He;
        (split; [|split; [|split]]);
        [ discriminate | intros e' [=] | count_calls; cbn [length]; lia | intros doc [=]
        | intros detail [= ->]; discriminate He | intros e' [=]
        | count_calls; cbn [length]; lia | intros doc [=] ].
  - destruct (is_not_found e) eqn:He;
      (split; [|split; [|split]]);
      [ discriminate | intros e' _; count_calls; reflexivity
      | count_calls; cbn [length]; lia | intros doc [=]
      | intros detail [= ->]; discriminate He | intros e' _; count_calls; reflexivity
      | count_calls; cbn [length]; lia | intros doc [=] ].
Qed.

Lemma get_basic_charge_plan_calls_witness :
  filter is_call (trace (run (spy (Err (OtherException "Timeout" "")) (Ok VNone))
                             (get_basic_charge_plan charger_EH12345) 0%nat))
  = [Called (easee_get "/api/chargers/EH12345/basic_charge_plan")] /\
  returned (run (spy (Ok (Object (mkObj 0))) (Ok (VList [])))
                (get_basic_charge_plan charger_EH12345) 0%nat) = Err AttributeError.
Proof.
  split.
  - apply (proj1 (proj2 (get_basic_charge_plan_calls charger_EH12345 nat
                    (spy (Err (OtherException "Timeout" "")) (Ok VNone)) 0%nat))
             (OtherException "Timeout" "")).
    reflexivity.
  - apply (proj2 (proj2 (proj2 (get_basic_charge_plan_calls charger_EH12345 nat
                    (spy (Ok (Object (mkObj 0))) (Ok (VList []))) 0%nat))) (VList [])).
    + reflexivity.
    + discriminate.
Defined.

Lemma one_call_on_await (self : Charger) (c : Call PyAny) :
  (exists suffix, call_path c = Some ("/api/chargers/" +:+ id self +:+ suffix)) ->
  (call_body c = None \/
   exists field value, call_body c = Some (VDict {[ field := value ]})) ->
  one_call_on self (await c).
Proof.
  intros Hp Hb. exists c. split; [exact Hp|]. split; [exact Hb|].
  intros W h w. apply run_await.
Qed.

(** X7: the commands, the settings and the two deletions are one call
    each: a call on a path of this charger ([/api/chargers/<id>/...]),
    without a body or with a body of exactly one field, and the run is that
    call and nothing else: what the transport returns is returned, what it
    raises (a [NotFoundException] as well) is raised. *)
Theorem single_call_operations_outcome (self : Charger) (enable : bool) (v : PyVal) :
  Forall (one_call_on self) (single_call_operations self enable v).
Proof.
  unfold single_call_operations.
  repeat (apply Forall_cons; split);
    [ .. | constructor ];
    (apply one_call_on_await;
     [ eexists; reflexivity
     | first [left; reflexivity | right; do 2 eexists; reflexivity] ]).
Qed.

Lemma set_access_table (a : Scalar) (c : Z) :
  table_find [ (SInt 1, 1); (SInt 2, 2); (SInt 3, 3);
               (SStr "open_for_all", 1); (SStr "easee_account_required", 2);
               (SStr "whitelist", 3) ] a = Some c ->
  c = 1 \/ c = 2 \/ c = 3.
Proof.
  cbn [table_find].
  repeat (match goal with
          | |- context [if ?b then _ else _] => destruct b
          end; [intros [= <-]; lia|]).
  discriminate.
Qed.

(** X8: whatever [set_access] is given, it never sends anything but a PUT on
    the access path of this charger with body 1, 2 or 3, once: either that
    is the whole run, or nothing is called and the method has raised
    [KeyError] on the value, or [TypeError] when the value is unhashable. *)
Theorem set_access_sends_known_code (self : Charger) (access : PyVal) W (h : Handler W) (w : W) :
  let o := run h (set_access self access) w in
  (exists c, (c = 1 \/ c = 2 \/ c = 3) /\
             trace o = [Called (easee_put ("/api/chargers/" +:+ id self +:+ "/access")
                                          (Some (VInt c)))]) \/
  (trace o = [] /\ world o = w /\
   (returned o = Err (KeyError access) \/
    (returned o = Err TypeError /\ hashable access = Err TypeError))).
Proof.
  cbn zeta. unfold set_access, table_getitem.
  destruct access as [a|l|d]; cbn [hashable rbind lift bind].
  - destruct (table_find _ a) as [c|] eqn:Ha; cbn [lift bind].
    + left. exists c. split; [exact (set_access_table a c Ha)|].
      change (bind (Ret c) _) with (await
        (easee_put ("/api/chargers/" +:+ id self +:+ "/access") (Some (VInt c)))).
      rewrite run_await. reflexivity.
    + right. cbn. auto.
  - right. cbn. auto.
  - right. cbn. auto.
Qed.

(** ** The listing of sessions, when it does not go through *)

Lemma run_for_each_fails {W} (h : Handler W) (w : W)
      (good sessions : list (gmap string PyVal)) (x : PyVal) (rest : list PyVal) (e : Exn) :
  Forall2 (fun p s => ChargerSession p = Ok s) good sessions ->
  session_item x = Err e ->
  run h (for_each (fun session : PyVal =>
                     bind (tell (construct "ChargerSession"))
                          (fun _ => lift (session_item session)))
                  ((VDict <$> good) ++ x :: rest)) w
  = mkOutcome (replicate (S (length good)) (Noted (construct "ChargerSession"))) w (Err e).
Proof.
  set (body := fun session : PyVal => bind _ _).
  intros H2 Hx. induction H2 as [|p s good sessions Hs _ IH].
  - cbn [fmap list_fmap app for_each]. rewrite run_bind.
    assert (run h (body x) w = mkOutcome [Noted (construct "ChargerSession")] w (Err e)) as ->.
    { unfold body. cbn [tell bind]. rewrite Hx. reflexivity. }
    reflexivity.
  - change ((VDict <$> p :: good) ++ x :: rest) with (VDict p :: ((VDict <$> good) ++ x :: rest)).
    cbn [for_each]. rewrite run_bind.
    assert (run h (body (VDict p)) w
            = mkOutcome [Noted (construct "ChargerSession")] w (Ok s)) as ->.
    { unfold body, session_item. cbn [tell bind with_get rbind]. rewrite Hs. reflexivity. }
    cbn zeta; cbn [returned world trace]. rewrite run_bind, IH. reflexivity.
Qed.

Lemma filter_calls_notes (n : nat) (note : Note) :
  filter is_call (replicate n (Noted note)) = [].
Proof.
  induction n as [|n IH]; [reflexivity|].
  cbn [replicate]. rewrite filter_cons_False by (intros []). exact IH.
Qed.

Lemma constructible_sessions (good : list (gmap string PyVal)) :
  Forall (fun p => exists s, ChargerSession p = Ok s) good ->
  exists sessions, Forall2 (fun p s => ChargerSession p = Ok s) good sessions.
Proof.
  induction 1 as [|p good [s Hs] _ [sessions IH]].
  - exists []. constructor.
  - exists (s :: sessions). constructor; assumption.
Qed.

(** X9: the listing of sessions fails fast and never asks twice.  What the
    GET or [json()] raises is raised; an empty list gives an empty list; a
    document that is [None], a boolean or a number cannot be iterated and
    raises [TypeError]; and at the first item of the list that gives no
    session (an item that is no dict raises [AttributeError], an energy that
    [float] refuses raises its error) the method raises that error, having
    made its two calls and no other, with nothing sorted or returned. *)
Theorem get_sessions_between_dates_fails_fast
        (self : Charger) (from_date to_date : datetime) W (h : Handler W) (w : W) :
  let path := "/api/sessions/charger/" +:+ id self +:+ "/sessions/"
              +:+ isoformat from_date +:+ "/" +:+ isoformat to_date in
  let o := run h (get_sessions_between_dates self from_date to_date) w in
  (forall e, snd (get_json h path w) = Err e -> returned o = Err e) /\
  (snd (get_json h path w) = Ok (VList []) -> returned o = Ok []) /\
  (forall a, snd (get_json h path w) = Ok (VScalar a) -> (forall s, a <> SStr s) ->
             returned o = Err TypeError) /\
  (forall good x rest e,
      snd (get_json h path w) = Ok (VList ((VDict <$> good) ++ x :: rest)) ->
      Forall (fun p => exists s, ChargerSession p = Ok s) good ->
      session_item x = Err e ->
      returned o = Err e /\
      world o = fst (get_json h path w) /\
      length (filter is_call (trace o)) = 2%nat).
Proof.
  cbn zeta. unfold get_sessions_between_dates, get_json. rewrite run_get_then.
  destruct (h _ (easee_get _) w) as [w1 [r|e]]; cbn [snd fst returned world trace].
  2: { repeat split; try discriminate. intros e' [= <-]. reflexivity. }
  destruct (h _ (response_json r) w1) as [w2 [doc|e]]; cbn [snd fst returned world trace].
  2: { repeat split; try discriminate. intros e' [= <-]. reflexivity. }
  split; [discriminate|]. split; [|split].
  - intros [= ->]. reflexivity.
  - intros a [= ->] Ha. destruct a as [|b|z|f|s]; try reflexivity.
    destruct (Ha s). reflexivity.
  - intros good x rest e [= ->] Hgood Hx.
    destruct (constructible_sessions good Hgood) as [sessions H2].
    cbn [py_iter lift bind].
    rewrite run_bind.
    change (fun session : PyVal => bind (tell (construct "ChargerSession")) _)
      with (fun session : PyVal =>
              bind (tell (construct "ChargerSession")) (fun _ => lift (session_item session))).
    rewrite (run_for_each_fails h w2 good sessions x rest e H2 Hx).
    cbn zeta; cbn [returned world trace].
    split; [reflexivity|]. split; [reflexivity|].
    rewrite !filter_cons_True by exact I.
    rewrite filter_calls_notes. reflexivity.
Qed.

Lemma get_sessions_between_dates_fails_fast_witness :
  let o := run (spy (Ok (Object (mkObj 0)))
                    (Ok (VList [VDict session_A; VStr "?"; VDict session_B])))
               (get_sessions_between_dates charger_EH12345
                  (a_datetime "2021-03-01T00:00:00") (a_datetime "2021-03-04T00:00:00"))
               0%nat in
  returned (run (spy (Err (OtherException "Timeout" "")) (Ok VNone))
                (get_sessions_between_dates charger_EH12345
                   (a_datetime "2021-03-01T00:00:00") (a_datetime "2021-03-04T00:00:00"))
                0%nat) = Err (OtherException "Timeout" "") /\
  returned (run (spy (Ok (Object (mkObj 0))) (Ok (VList [])))
                (get_sessions_between_dates charger_EH12345
                   (a_datetime "2021-03-01T00:00:00") (a_datetime "2021-03-04T00:00:00"))
                0%nat) = Ok [] /\
  returned (run (spy (Ok (Object (mkObj 0))) (Ok VNone))
                (get_sessions_between_dates charger_EH12345
                   (a_datetime "2021-03-01T00:00:00") (a_datetime "2021-03-04T00:00:00"))
                0%nat) = Err TypeError /\
  returned o = Err AttributeError /\ world o = 2%nat /\
  length (filter is_call (trace o)) = 2%nat.
Proof.
  intros o.
  split; [|split; [|split]].
  - apply (proj1 (get_sessions_between_dates_fails_fast charger_EH12345
                    (a_datetime "2021-03-01T00:00:00") (a_datetime "2021-03-04T00:00:00")
                    nat (spy (Err (OtherException "Timeout" "")) (Ok VNone)) 0%nat)).
    reflexivity.
  - apply (proj1 (proj2 (get_sessions_between_dates_fails_fast charger_EH12345
                    (a_datetime "2021-03-01T00:00:00") (a_datetime "2021-03-04T00:00:00")
                    nat (spy (Ok (Object (mkObj 0))) (Ok (VList []))) 0%nat))).
    reflexivity.
  - apply (proj1 (proj2 (proj2 (get_sessions_between_dates_fails_fast charger_EH12345
                    (a_datetime "2021-03-01T00:00:00") (a_datetime "2021-03-04T00:00:00")
                    nat (spy (Ok (Object (mkObj 0))) (Ok VNone)) 0%nat))) SNone).
    + reflexivity.
    + discriminate.
  - apply (proj2 (proj2 (proj2 (get_sessions_between_dates_fails_fast charger_EH12345
                    (a_datetime "2021-03-01T00:00:00") (a_datetime "2021-03-04T00:00:00")
                    nat (spy (Ok (Object (mkObj 0)))
                             (Ok (VList [VDict session_A; VStr "?"; VDict session_B]))) 0%nat)))
             [session_A] (VStr "?") [VDict session_B] AttributeError).
    + reflexivity.
    + repeat constructor. eexists. reflexivity.
    + reflexivity.
Defined.

(** ** The listing of sessions does not depend on the order of the response *)

Lemma NoDup_fmap_inj_on {A B} (f : A -> B) (l : list A) (x y : A) :
  NoDup (f <$> l) -> x ∈ l -> y ∈ l -> f x = f y -> x = y.
Proof.
  induction l as [|a l IH]; intros Hnd Hx Hy E; [inversion Hx|].
  cbn [fmap list_fmap] in Hnd. apply NoDup_cons in Hnd as [Ha Hnd].
  apply elem_of_cons in Hx as [-> | Hx]; apply elem_of_cons in Hy as [-> | Hy].
  - reflexivity.
  - destruct Ha. rewrite E. apply list_elem_of_fmap. eauto.
  - destruct Ha. rewrite <- E. apply list_elem_of_fmap. eauto.
  - apply IH; assumption.
Qed.

Lemma session_of_payload (p : gmap string PyVal) :
  session_payload p ->
  ChargerSession p = Ok (session_of p) /\
  session_of p !! "carConnected" = p !! "carConnected" /\
  p !! "carConnected" = Some (VStr (connected_at (session_of p))).
Proof.
  intros [[t Ht] [f Hf]].
  destruct (ChargerSession_connected p t f Ht Hf) as (s & Hs & Hst).
  unfold session_of, connected_at. rewrite Hs, Hst, Ht. auto.
Qed.

Lemma sessions_of_payloads_fmap (payloads : list (gmap string PyVal)) :
  Forall session_payload payloads ->
  Forall2 (fun p s => ChargerSession p = Ok s) payloads (session_of <$> payloads).
Proof.
  induction 1 as [|p payloads Hp _ IH]; [constructor|].
  cbn [fmap list_fmap]. constructor; [apply session_of_payload, Hp | exact IH].
Qed.

Lemma get_sessions_between_dates_returned
      (self : Charger) (from_date to_date : datetime)
      W (h : Handler W) (w : W) (payloads : list (gmap string PyVal)) :
  snd (get_json h ("/api/sessions/charger/" +:+ id self +:+ "/sessions/"
                   +:+ isoformat from_date +:+ "/" +:+ isoformat to_date) w)
  = Ok (VList (VDict <$> payloads)) ->
  Forall session_payload payloads ->
  returned (run h (get_sessions_between_dates self from_date to_date) w)
  = Ok (reverse (isort_by connected_at (reverse (session_of <$> payloads)))).
Proof.
  intros Hfetch Hp.
  unfold get_sessions_between_dates, get_json in *. rewrite run_get_then.
  destruct (h _ (easee_get _) w) as [w1 [resp|e]]; [|discriminate Hfetch].
  destruct (h _ (response_json resp) w1) as [w2 r2]. cbn [snd] in Hfetch. subst r2.
  cbn zeta; cbn [returned lift bind py_iter].
  rewrite run_bind,
    (run_for_each_sessions h w2 payloads _ (sessions_of_payloads_fmap payloads Hp)).
  cbn zeta; cbn [returned world trace run lift].
  rewrite (list_sort_reverse connected_at); [reflexivity|].
  apply Forall_fmap, Forall_forall. intros p Hin. cbn.
  rewrite Forall_forall in Hp.
  destruct (session_of_payload p (Hp p Hin)) as (_ & Hs & Ht).
  unfold getitem. rewrite Hs, Ht. reflexivity.
Qed.

(** X10: the order of the sessions in the response does not show in the
    result when no two of them have the same [carConnected]: two responses
    holding the same session payloads, in any two orders, give the same
    list. *)
Theorem get_sessions_between_dates_order_free
        (self : Charger) (from_date to_date : datetime)
        W1 (h1 : Handler W1) (w1 : W1) W2 (h2 : Handler W2) (w2 : W2)
        (payloads1 payloads2 : list (gmap string PyVal)) :
  let path := "/api/sessions/charger/" +:+ id self +:+ "/sessions/"
              +:+ isoformat from_date +:+ "/" +:+ isoformat to_date in
  snd (get_json h1 path w1) = Ok (VList (VDict <$> payloads1)) ->
  snd (get_json h2 path w2) = Ok (VList (VDict <$> payloads2)) ->
  payloads1 ≡ₚ payloads2 ->
  Forall session_payload payloads1 ->
  NoDup ((fun p => p !! "carConnected") <$> payloads1) ->
  returned (run h1 (get_sessions_between_dates self from_date to_date) w1)
  = returned (run h2 (get_sessions_between_dates self from_date to_date) w2).
Proof.
  intros path H1 H2 Hperm Hp1 Hnd.
  assert (Forall session_payload payloads2) as Hp2.
  { apply Forall_forall. intros p Hin.
    rewrite Forall_forall in Hp1. apply Hp1. rewrite Hperm. exact Hin. }
  rewrite (get_sessions_between_dates_returned self from_date to_date W1 h1 w1 payloads1 H1 Hp1).
  rewrite (get_sessions_between_dates_returned self from_date to_date W2 h2 w2 payloads2 H2 Hp2).
  f_equal.
  apply (StronglySorted_unique_strong (flip (le_key connected_at))).
  - intros x1 x2 Hx1 Hx2 H12 H21.
    rewrite elem_of_reverse, isort_by_Permutation, elem_of_reverse in Hx1, Hx2.
    apply list_elem_of_fmap in Hx1 as (p1 & -> & Hin1).
    apply list_elem_of_fmap in Hx2 as (p2 & -> & Hin2).
    rewrite <- Hperm in Hin2.
    f_equal. apply (NoDup_fmap_inj_on (fun p => p !! "carConnected") payloads1); try assumption.
    rewrite Forall_forall in Hp1.
    destruct (session_of_payload p1 (Hp1 p1 Hin1)) as (_ & _ & ->).
    destruct (session_of_payload p2 (Hp1 p2 Hin2)) as (_ & _ & ->).
    unfold flip, le_key in H12, H21.
    rewrite (anti_symm String.le _ _ H12 H21). reflexivity.
  - apply StronglySorted_reverse, isort_by_sorted.
  - apply StronglySorted_reverse, isort_by_sorted.
  - assert (forall l : list (gmap string PyVal),
               reverse (isort_by connected_at (reverse l)) ≡ₚ l) as Hs.
    { intros l. etrans; [apply reverse_Permutation|].
      etrans; [apply isort_by_Permutation|]. apply reverse_Permutation. }
    etrans; [apply Hs|]. etrans; [|symmetry; apply Hs].
    apply fmap_Permutation, Hperm.
Qed.

Lemma get_sessions_between_dates_order_free_witness :
  returned (run (spy (Ok (Object (mkObj 0)))
                     (Ok (VList [VDict session_A; VDict session_B; VDict session_D])))
                (get_sessions_between_dates charger_EH12345
                   (a_datetime "2021-03-01T00:00:00") (a_datetime "2021-03-04T00:00:00"))
                0%nat)
  = returned (run (spy (Ok (Object (mkObj 0)))
                       (Ok (VList [VDict session_D; VDict session_A; VDict session_B])))
                  (get_sessions_between_dates charger_EH12345
                     (a_datetime "2021-03-01T00:00:00") (a_datetime "2021-03-04T00:00:00"))
                  5%nat).
Proof.
  apply (get_sessions_between_dates_order_free charger_EH12345
           (a_datetime "2021-03-01T00:00:00") (a_datetime "2021-03-04T00:00:00")
           nat _ 0%nat nat _ 5%nat
           [session_A; session_B; session_D] [session_D; session_A; session_B]).
  - reflexivity.
  - reflexivity.
  - change [session_D; session_A; session_B] with ([session_D] ++ [session_A; session_B]).
    change [session_A; session_B; session_D] with ([session_A; session_B] ++ [session_D]).
    apply Permutation_app_comm.
  - repeat constructor; eexists; reflexivity.
  - cbn [fmap list_fmap]. repeat (apply NoDup_cons; split).
    + intros Hin. rewrite !elem_of_cons in Hin.
      destruct Hin as [Hin|[Hin|Hin]]; [discriminate Hin..|inversion Hin].
    + intros Hin. rewrite !elem_of_cons in Hin.
      destruct Hin as [Hin|Hin]; [discriminate Hin|inversion Hin].
    + intros Hin. inversion Hin.
    + apply NoDup_nil. exact I.
Defined.

(** ** Consumption between two dates *)

Lemma lstrip_blank (s : string) : blank s = true -> lstrip s = EmptyString.
Proof.
  induction s as [|c s IH]; [reflexivity|].
  cbn [blank lstrip]. intros [Hc Hs]%andb_prop. rewrite Hc. exact (IH Hs).
Qed.

Lemma float_of_string_blank (s : string) : blank s = true -> float_of_string s = Err ValueError.
Proof.
  intros Hs. unfold float_of_string, strip. rewrite (lstrip_blank s Hs). reflexivity.
Qed.

(** X11: [get_consumption_between_dates] passes on what the GET or [text()]
    raises, and otherwise its outcome is that of [float] of the body: the
    float is returned when the body converts, and a float is returned only
    then; a body of white space only (an empty body) raises [ValueError], and
    a body that is [None] raises [TypeError]. *)
Theorem get_consumption_between_dates_outcome
        (self : Charger) (from_date to_date : datetime) W (h : Handler W) (w : W) :
  let path := "/api/sessions/charger/" +:+ id self +:+ "/total/"
              +:+ isoformat from_date +:+ "/" +:+ isoformat to_date in
  let o := run h (get_consumption_between_dates self from_date to_date) w in
  (forall e, snd (get_text h path w) = Err e -> returned o = Err e) /\
  (forall body, snd (get_text h path w) = Ok body -> returned o = py_float body) /\
  (forall body f, snd (get_text h path w) = Ok body -> py_float body = Ok f ->
                  returned o = Ok f) /\
  (forall f, returned o = Ok f ->
             exists body, snd (get_text h path w) = Ok body /\ py_float body = Ok f) /\
  (forall s, snd (get_text h path w) = Ok (VStr s) -> blank s = true ->
             returned o = Err ValueError) /\
  (snd (get_text h path w) = Ok VNone -> returned o = Err TypeError).
Proof.
  cbn zeta. unfold get_consumption_between_dates, get_text. rewrite run_get_then.
  destruct (h _ (easee_get _) w) as [w1 [r|e]]; cbn [snd returned].
  2: { repeat split; try discriminate. intros e' [= <-]. reflexivity. }
  destruct (h _ (response_text r) w1) as [w2 [body|e]]; cbn [snd returned].
  2: { repeat split; try discriminate. intros e' [= <-]. reflexivity. }
  assert (returned (run h (lift (py_float body)) w2) = py_float body) as Hlift
    by (destruct (py_float body); reflexivity).
  cbn zeta. split; [discriminate|]. split; [|split; [|split; [|split]]].
  - intros ? [= <-]. exact Hlift.
  - intros ? f [= <-] Hf. rewrite Hlift. exact Hf.
  - intros f Hf. exists body. split; [reflexivity|].
    rewrite <- Hlift. exact Hf.
  - intros s [= ->] Hs. cbn [py_float]. rewrite (float_of_string_blank s Hs). reflexivity.
  - intros [= ->]. reflexivity.
Qed.

Lemma get_consumption_between_dates_outcome_witness :
  let consumption reply :=
    returned (run (spy_text reply)
                  (get_consumption_between_dates charger_EH12345
                     (a_datetime "2021-03-01T00:00:00") (a_datetime "2021-03-04T00:00:00"))
                  0%nat) in
  consumption (Err (OtherException "Timeout" "")) = Err (OtherException "Timeout" "") /\
  consumption (Ok (VInt 7)) = py_float (VInt 7) /\
  consumption (Ok (VStr "10.5")) = Ok (S754_finite false 5910974510923776 (-49)) /\
  (exists body, Ok (VStr "10.5") = Ok body /\
                py_float body = Ok (S754_finite false 5910974510923776 (-49))) /\
  consumption (Ok (VStr "  ")) = Err ValueError /\
  consumption (Ok VNone) = Err TypeError.
Proof.
  intros consumption.
  pose proof (fun reply =>
                get_consumption_between_dates_outcome charger_EH12345
                  (a_datetime "2021-03-01T00:00:00") (a_datetime "2021-03-04T00:00:00")
                  nat (spy_text reply) 0%nat) as H.
  cbn zeta in H.
  split; [|split; [|split; [|split; [|split]]]].
  - destruct (H (Err (OtherException "Timeout" ""))) as (H1 & _).
    apply H1. reflexivity.
  - destruct (H (Ok (VInt 7))) as (_ & H2 & _).
    apply H2. reflexivity.
  - destruct (H (Ok (VStr "10.5"))) as (_ & _ & H3 & _).
    apply (H3 (VStr "10.5")); [reflexivity|]. vm_compute. reflexivity.
  - destruct (H (Ok (VStr "10.5"))) as (_ & _ & H3 & H4 & _).
    apply H4. apply (H3 (VStr "10.5")); [reflexivity|]. vm_compute. reflexivity.
  - destruct (H (Ok (VStr "  "))) as (_ & _ & _ & _ & H5 & _).
    apply (H5 "  "); reflexivity.
  - destruct (H (Ok VNone)) as (_ & _ & _ & _ & _ & H6).
    apply H6. reflexivity.
Defined.

(** ** Whose charger a request is for *)

Lemma string_length_app (s t : string) :
  String.length (s +:+ t) = (String.length s + String.length t)%nat.
Proof.
  induction s as [|c s IH]; [reflexivity|].
  change (String c s +:+ t) with (String c (s +:+ t)). cbn [String.length]. rewrite IH. reflexivity.
Qed.

Lemma string_app_inj_r (s1 s2 t : string) : s1 +:+ t = s2 +:+ t -> s1 = s2.
Proof.
  revert s2. induction s1 as [|c s1 IH]; intros [|c2 s2] E.
  - reflexivity.
  - apply (f_equal String.length) in E.
    change (String c2 s2 +:+ t) with (String c2 (s2 +:+ t)) in E.
    change (EmptyString +:+ t) with t in E.
    cbn [String.length] in E. rewrite string_length_app in E. lia.
  - apply (f_equal String.length) in E.
    change (String c s1 +:+ t) with (String c (s1 +:+ t)) in E.
    change (EmptyString +:+ t) with t in E.
    cbn [String.length] in E. rewrite string_length_app in E. lia.
  - change (String c s1 +:+ t) with (String c (s1 +:+ t)) in E.
    change (String c2 s2 +:+ t) with (String c2 (s2 +:+ t)) in E.
    injection E as -> E. f_equal. apply IH, E.
Qed.

Lemma await_same_path (id1 id2 suffix : string) (c1 c2 : Call PyAny) :
  call_path c1 = Some ("/api/chargers/" +:+ id1 +:+ suffix) ->
  call_path c2 = Some ("/api/chargers/" +:+ id2 +:+ suffix) ->
  forall W1 (h1 : Handler W1) (w1 : W1) W2 (h2 : Handler W2) (w2 : W2),
    paths_called (trace (run h1 (await c1) w1)) = paths_called (trace (run h2 (await c2) w2)) ->
    id1 = id2.
Proof.
  intros H1 H2 W1 h1 w1 W2 h2 w2. rewrite !run_await.
  unfold paths_called. cbn [trace omap list_omap event_path]. rewrite H1, H2.
  intros E. assert ("/api/chargers/" +:+ id1 +:+ suffix = "/api/chargers/" +:+ id2 +:+ suffix)
    as E' by congruence.
  apply (inj (String.app "/api/chargers/")) in E'.
  exact (string_app_inj_r _ _ _ E').
Qed.

(** X12: a request names its charger.  For each of the commands, settings
    and deletions, the same operation on two chargers goes to the same path
    only if the two chargers have the same id. *)
Theorem operations_name_their_charger (self1 self2 : Charger) (enable : bool) (v : PyVal) :
  Forall2 (fun p1 p2 : Prog PyAny =>
             forall W1 (h1 : Handler W1) (w1 : W1) W2 (h2 : Handler W2) (w2 : W2),
               paths_called (trace (run h1 p1 w1)) = paths_called (trace (run h2 p2 w2)) ->
               id self1 = id self2)
          (single_call_operations self1 enable v)
          (single_call_operations self2 enable v).
Proof.
  unfold single_call_operations.
  repeat (apply Forall2_cons; split);
    [ .. | constructor ];
    (eapply await_same_path; reflexivity).
Qed.

Lemma operations_name_their_charger_witness :
  id charger_EH12345 = id charger_on_circuit.
Proof.
  pose proof (operations_name_their_charger charger_EH12345 charger_on_circuit true VNone) as H.
  apply Forall2_cons in H as [H _].
  apply (H nat (spy (Ok (Object (mkObj 0))) (Ok VNone)) 0%nat
           nat (spy (Ok (Object (mkObj 0))) (Ok VNone)) 3%nat).
  reflexivity.
Defined.

(** ** Codes that come as booleans or floats *)

Lemma scalar_eq_int_l (k : Z) (b : Scalar) :
  scalar_eq (SInt k) b
  = match num_of_scalar b with
    | Some y => match num_compare (NDyadic k 0) y with
                | Some Eq => true
                | _ => false
                end
    | None => false
    end.
Proof. destruct b; reflexivity. Qed.

(** A value that [==] the integer [z] equals the same integers as [z]. *)
Lemma scalar_eq_int_trans (z k : Z) (a : Scalar) :
  scalar_eq (SInt z) a = true -> scalar_eq (SInt k) a = (k =? z).
Proof.
  rewrite !scalar_eq_int_l.
  destruct (num_of_scalar a) as [[|s|m e]|]; try discriminate.
  { destruct s; discriminate. }
  unfold num_compare, dyadic_compare.
  set (P := 2 ^ (0 - Z.min 0 e)). set (Q := m * 2 ^ (e - Z.min 0 e)).
  assert (0 < P) as HP by (apply Z.pow_pos_nonneg; lia).
  destruct (Z.compare_spec (z * P) Q) as [E| |]; try discriminate. intros _.
  rewrite <- E.
  destruct (Z.compare_spec (k * P) (z * P)) as [E'| |]; symmetry.
  - apply Z.eqb_eq. nia.
  - apply Z.eqb_neq. nia.
  - apply Z.eqb_neq. nia.
Qed.

Lemma scalar_eq_plain_key (key a : Scalar) (z : Z) :
  plain_key key -> scalar_eq (SInt z) a = true -> scalar_eq key a = scalar_eq key (SInt z).
Proof.
  intros Hk Ha. destruct key as [|b|k|f|s]; try destruct Hk.
  - destruct a; try discriminate; reflexivity.
  - rewrite (scalar_eq_int_trans z k a Ha), scalar_eq_int. reflexivity.
  - destruct a; try discriminate; reflexivity.
Qed.

Lemma table_find_numeric {V} (tbl : list (Scalar * V)) (a : Scalar) (z : Z) :
  Forall (fun kv => plain_key (fst kv)) tbl ->
  scalar_eq (SInt z) a = true ->
  table_find tbl a = table_find tbl (SInt z).
Proof.
  intros Hk Ha. induction Hk as [|[key v] tbl Hkey _ IH]; [reflexivity|].
  cbn [table_find]. cbn [fst] in Hkey.
  rewrite (scalar_eq_plain_key key a z Hkey Ha), IH. reflexivity.
Qed.

Lemma table_getitem_numeric {V} (tbl : list (Scalar * V)) (a : Scalar) (z : Z) (v : V) :
  Forall (fun kv => plain_key (fst kv)) tbl ->
  scalar_eq (SInt z) a = true ->
  table_getitem tbl (VInt z) = Ok v -> table_getitem tbl (VScalar a) = Ok v.
Proof.
  intros Hk Ha. unfold table_getitem, hashable; cbn [rbind].
  rewrite (table_find_numeric tbl a z Hk Ha).
  destruct (table_find tbl (SInt z)); [trivial|discriminate].
Qed.

Lemma tables_plain_keys :
  Forall (fun kv : Scalar * string => plain_key (fst kv)) STATUS /\
  Forall (fun kv : Scalar * string => plain_key (fst kv)) NODE_TYPE /\
  Forall (fun kv : Scalar * string => plain_key (fst kv)) PHASE_MODE /\
  Forall (fun kv : Scalar * string => plain_key (fst kv)) REASON_FOR_NO_CURRENT.
Proof. repeat split; repeat constructor. Qed.

(** X13: a code is decoded by its value, not by its JSON type.  When a
    boolean or a float [a] equals the integer [z] (as [True == 1] and
    [3.0 == 3] do), a payload with [a] under [chargerOpMode],
    [localNodeType] or [phaseMode] decodes to the very record the payload
    with [z] there decodes to; under [reasonForNoCurrent] it gets the label
    of [z], behind the text of [a] in the parentheses. *)
Theorem codes_decode_by_value (a : Scalar) (z : Z) :
  scalar_eq (SInt z) a = true ->
  (forall state d : gmap string PyVal,
      ChargerState (<["chargerOpMode" := VInt z]> state) false = Ok d ->
      ChargerState (<["chargerOpMode" := VScalar a]> state) false = Ok d) /\
  (forall config d : gmap string PyVal,
      ChargerConfig (<["localNodeType" := VInt z]> config) false = Ok d ->
      ChargerConfig (<["localNodeType" := VScalar a]> config) false = Ok d) /\
  (forall config d : gmap string PyVal,
      ChargerConfig (<["phaseMode" := VInt z]> config) false = Ok d ->
      ChargerConfig (<["phaseMode" := VScalar a]> config) false = Ok d) /\
  reason_text (VScalar a)
  = Ok ("(" +:+ str_scalar a +:+ ") "
        +:+ default "Unknown" (table_find REASON_FOR_NO_CURRENT (SInt z))).
Proof.
  intros Ha. destruct tables_plain_keys as (HS & HN & HP & HR).
  split; [|split; [|split]].
  - intros state d Hd.
    destruct (ChargerState_decoded_inv _ _ Hd) as (mode & code & status & reason & Hm & Hs & Hc & Hr & ->).
    rewrite lookup_insert_eq in Hm. injection Hm as <-.
    rewrite lookup_insert_ne in Hc by discriminate.
    rewrite (ChargerState_decoded _ (VScalar a) code status reason).
    + rewrite !insert_insert_eq. reflexivity.
    + apply lookup_insert_eq.
    + exact (table_getitem_numeric STATUS a z status HS Ha Hs).
    + rewrite lookup_insert_ne by discriminate. exact Hc.
    + exact Hr.
  - intros config d Hd.
    destruct (ChargerConfig_decoded_inv _ _ Hd) as (node & phase & nlbl & plbl & Hn & Hnl & Hp & Hpl & ->).
    rewrite lookup_insert_eq in Hn. injection Hn as <-.
    rewrite lookup_insert_ne in Hp by discriminate.
    unfold ChargerConfig; cbn [negb].
    rewrite (getitem_Some _ "localNodeType" (VScalar a)) by apply lookup_insert_eq.
    cbn [rbind]. rewrite (table_getitem_numeric NODE_TYPE a z nlbl HN Ha Hnl); cbn [rbind].
    rewrite (getitem_Some _ "phaseMode" phase) by (rewrite lookup_insert_ne by discriminate; exact Hp).
    cbn [rbind]. rewrite Hpl; cbn [rbind]. unfold BaseDict.
    rewrite !(insert_insert_ne _ "phaseMode" "localNodeType") by discriminate.
    rewrite !insert_insert_eq. reflexivity.
  - intros config d Hd.
    destruct (ChargerConfig_decoded_inv _ _ Hd) as (node & phase & nlbl & plbl & Hn & Hnl & Hp & Hpl & ->).
    rewrite lookup_insert_eq in Hp. injection Hp as <-.
    rewrite lookup_insert_ne in Hn by discriminate.
    unfold ChargerConfig; cbn [negb].
    rewrite (getitem_Some _ "localNodeType" node) by (rewrite lookup_insert_ne by discriminate; exact Hn).
    cbn [rbind]. rewrite Hnl; cbn [rbind].
    rewrite (getitem_Some _ "phaseMode" (VScalar a)) by apply lookup_insert_eq.
    cbn [rbind]. rewrite (table_getitem_numeric PHASE_MODE a z plbl HP Ha Hpl); cbn [rbind].
    unfold BaseDict.
    rewrite !(insert_insert_ne _ "localNodeType" "phaseMode") by discriminate.
    rewrite !insert_insert_eq. reflexivity.
  - rewrite reason_text_scalar, (table_find_numeric _ a z HR Ha). reflexivity.
Qed.

Lemma codes_decode_by_value_witness :
  let three : Scalar := SFloat (S754_finite false 6755399441055744 (-51)) in
  ChargerState {[ "chargerOpMode" := VScalar three; "reasonForNoCurrent" := VInt 0 ]} false
  = ChargerState {[ "chargerOpMode" := VInt 3; "reasonForNoCurrent" := VInt 0 ]} false /\
  ChargerConfig {[ "localNodeType" := VBool true; "phaseMode" := VInt 2 ]} false
  = ChargerConfig {[ "localNodeType" := VInt 1; "phaseMode" := VInt 2 ]} false /\
  ChargerConfig {[ "phaseMode" := VScalar three; "localNodeType" := VInt 2 ]} false
  = ChargerConfig {[ "phaseMode" := VInt 3; "localNodeType" := VInt 2 ]} false /\
  reason_text (VBool true) = Ok "(True) Charger paused".
Proof.
  intros three.
  assert (scalar_eq (SInt 3) three = true) as H3 by reflexivity.
  assert (scalar_eq (SInt 1) (SBool true) = true) as H1 by reflexivity.
  split; [|split; [|split]].
  - apply (proj1 (codes_decode_by_value three 3 H3) {[ "reasonForNoCurrent" := VInt 0 ]}).
    reflexivity.
  - apply (proj1 (proj2 (codes_decode_by_value (SBool true) 1 H1)) {[ "phaseMode" := VInt 2 ]}).
    reflexivity.
  - apply (proj1 (proj2 (proj2 (codes_decode_by_value three 3 H3)))
             {[ "localNodeType" := VInt 2 ]}).
    reflexivity.
  - exact (proj2 (proj2 (proj2 (codes_decode_by_value (SBool true) 1 H1)))).
Defined.
